(** * Melon Client launcher: validation, offline identifier, launch sequence

    A shallow embedding of [melonclient4k.py]: the username validator
    [_validate_username], the launch handler [_launch] with the external
    launcher library as an explicit environment, and the configuration
    persistence [_load_config] / [_save_config] / [_on_close].

    Conventions.
    - A Python [str] is a list of Unicode code points ([list N]); [len] is
      the number of code points, as in Python.
    - A Python [bytes] / [bytearray] is a list of byte values in [Z].
    - A Python [int] is a [Z]; [//] is floor division ([Z.div]).
    - A [dict] with string keys is a [gmap (list N) _]. *)

From Stdlib Require Import ZArith NArith List Ascii String Lia Bool.
From stdpp Require Import base option list gmap pretty.

Local Open Scope Z_scope.
Local Set Warnings "-register-all".

(** ** Strings *)

(** A string literal of the source, as code points. *)
Definition pystr (s : string) : list N :=
  N_of_ascii <$> list_ascii_of_string s.

(** [a + b] on strings is list append; [needle in hay] is the substring
    test. *)
Fixpoint startswith (hay needle : list N) {struct needle} : bool :=
  match needle with
  | [] => true
  | n :: needle' =>
      match hay with
      | [] => false
      | h :: hay' => (n =? h)%N && startswith hay' needle'
      end
  end.

Fixpoint str_in (needle hay : list N) : bool :=
  startswith hay needle ||
  match hay with
  | [] => false
  | _ :: hay' => str_in needle hay'
  end.

Definition str_eqb (a b : list N) : bool := bool_decide (a = b).

(** [str.lower()].  ASCII upper-case letters are mapped to lower case.  The
    Unicode case tables are not modelled: every other code point is kept.
    (Outside ASCII, Python's mapping yields an ASCII letter only for U+0130,
    giving [i] followed by U+0307, and for U+212A, giving [k].) *)
Definition lower_char (c : N) : N :=
  if ((65 <=? c) && (c <=? 90))%N then (c + 32)%N else c.

Definition lower (s : list N) : list N := lower_char <$> s.

(** [str.isspace] on one code point: the white-space table of CPython. *)
Definition isspace (c : N) : bool :=
  ((9 <=? c) && (c <=? 13) || (28 <=? c) && (c <=? 32)
   || (c =? 0x85) || (c =? 0xA0) || (c =? 0x1680)
   || (0x2000 <=? c) && (c <=? 0x200A)
   || (c =? 0x2028) || (c =? 0x2029) || (c =? 0x202F)
   || (c =? 0x205F) || (c =? 0x3000))%N.

Fixpoint lstrip (s : list N) : list N :=
  match s with
  | c :: s' => if isspace c then lstrip s' else s
  | [] => []
  end.

Definition rstrip (s : list N) : list N := rev (lstrip (rev s)).

(** [str.strip()] with no argument. *)
Definition strip (s : list N) : list N := rstrip (lstrip s).

(** [str.encode()]: UTF-8, strict.  Surrogates (and numbers that are not
    code points) have no encoding: Python raises [UnicodeEncodeError]. *)
Definition utf8_char (c : N) : option (list Z) :=
  let z := Z.of_N c in
  if z <? 0x80 then Some [z]
  else if z <? 0x800 then
    Some [Z.lor 0xC0 (Z.shiftr z 6); Z.lor 0x80 (Z.land z 0x3F)]
  else if z <? 0x10000 then
    if (0xD800 <=? z) && (z <? 0xE000) then None
    else Some [Z.lor 0xE0 (Z.shiftr z 12);
               Z.lor 0x80 (Z.land (Z.shiftr z 6) 0x3F);
               Z.lor 0x80 (Z.land z 0x3F)]
  else if z <? 0x110000 then
    Some [Z.lor 0xF0 (Z.shiftr z 18);
          Z.lor 0x80 (Z.land (Z.shiftr z 12) 0x3F);
          Z.lor 0x80 (Z.land (Z.shiftr z 6) 0x3F);
          Z.lor 0x80 (Z.land z 0x3F)]
  else None.

Fixpoint encode (s : list N) : option (list Z) :=
  match s with
  | [] => Some []
  | c :: s' =>
      match utf8_char c, encode s' with
      | Some bs, Some rest => Some (bs ++ rest)
      | _, _ => None
      end
  end.

(** [str(n)] / [f"{n}"] for an [int]: decimal, with a minus sign. *)
Definition str_of_int (n : Z) : list N := pystr (pretty n).

(** ** [hashlib.md5]

    The digest function of the Python standard library, written out after
    RFC 1321.  Words are 32-bit values in [Z]; all additions wrap. *)
Module MD5.

Definition wrap32 (x : Z) : Z := x mod 2 ^ 32.

Definition add32 (x y : Z) : Z := wrap32 (x + y).

Definition not32 (x : Z) : Z := Z.lxor x 0xFFFFFFFF.

Definition rotl32 (x c : Z) : Z :=
  Z.lor (wrap32 (Z.shiftl x c)) (Z.shiftr x (32 - c)).

(** Per-round shift amounts. *)
Definition S : list Z :=
  [7; 12; 17; 22; 7; 12; 17; 22; 7; 12; 17; 22; 7; 12; 17; 22;
   5; 9; 14; 20; 5; 9; 14; 20; 5; 9; 14; 20; 5; 9; 14; 20;
   4; 11; 16; 23; 4; 11; 16; 23; 4; 11; 16; 23; 4; 11; 16; 23;
   6; 10; 15; 21; 6; 10; 15; 21; 6; 10; 15; 21; 6; 10; 15; 21].

(** [K[i] = floor(2^32 * abs(sin(i + 1)))]. *)
Definition K : list Z :=
  [ 0xd76aa478; 0xe8c7b756; 0x242070db; 0xc1bdceee;
    0xf57c0faf; 0x4787c62a; 0xa8304613; 0xfd469501;
    0x698098d8; 0x8b44f7af; 0xffff5bb1; 0x895cd7be;
    0x6b901122; 0xfd987193; 0xa679438e; 0x49b40821;
    0xf61e2562; 0xc040b340; 0x265e5a51; 0xe9b6c7aa;
    0xd62f105d; 0x02441453; 0xd8a1e681; 0xe7d3fbc8;
    0x21e1cde6; 0xc33707d6; 0xf4d50d87; 0x455a14ed;
    0xa9e3e905; 0xfcefa3f8; 0x676f02d9; 0x8d2a4c8a;
    0xfffa3942; 0x8771f681; 0x6d9d6122; 0xfde5380c;
    0xa4beea44; 0x4bdecfa9; 0xf6bb4b60; 0xbebfbc70;
    0x289b7ec6; 0xeaa127fa; 0xd4ef3085; 0x04881d05;
    0xd9d4d039; 0xe6db99e5; 0x1fa27cf8; 0xc4ac5665;
    0xf4292244; 0x432aff97; 0xab9423a7; 0xfc93a039;
    0x655b59c3; 0x8f0ccc92; 0xffeff47d; 0x85845dd1;
    0x6fa87e4f; 0xfe2ce6e0; 0xa3014314; 0x4e0811a1;
    0xf7537e82; 0xbd3af235; 0x2ad7d2bb; 0xeb86d391 ].

Definition nthZ (l : list Z) (i : Z) : Z := default 0 (l !! Z.to_nat i).

(** The round function and the message-word index of round [i]. *)
Definition mix (i b c d : Z) : Z :=
  if i <? 16 then Z.lor (Z.land b c) (Z.land (not32 b) d)
  else if i <? 32 then Z.lor (Z.land d b) (Z.land (not32 d) c)
  else if i <? 48 then Z.lxor b (Z.lxor c d)
  else Z.lxor c (Z.lor b (not32 d)).

Definition word_index (i : Z) : Z :=
  if i <? 16 then i
  else if i <? 32 then (5 * i + 1) mod 16
  else if i <? 48 then (3 * i + 5) mod 16
  else (7 * i) mod 16.

Record state := State { rA : Z; rB : Z; rC : Z; rD : Z }.

Definition init : state :=
  State 0x67452301 0xefcdab89 0x98badcfe 0x10325476.

Definition round (M : list Z) (st : state) (i : nat) : state :=
  let i := Z.of_nat i in
  let f := add32 (add32 (add32 (mix i (rB st) (rC st) (rD st)) (rA st))
                        (nthZ K i)) (nthZ M (word_index i)) in
  State (rD st) (add32 (rB st) (rotl32 f (nthZ S i))) (rB st) (rC st).

(** Little-endian words of a block and bytes of a word. *)
Fixpoint le_words (n : nat) (bs : list Z) : list Z :=
  match n with
  | O => []
  | Datatypes.S n' =>
      (nthZ bs 0 + 2 ^ 8 * nthZ bs 1 + 2 ^ 16 * nthZ bs 2
       + 2 ^ 24 * nthZ bs 3) :: le_words n' (drop 4 bs)
  end.

Fixpoint le_bytes (n : nat) (w : Z) : list Z :=
  match n with
  | O => []
  | Datatypes.S n' => w mod 256 :: le_bytes n' (w / 256)
  end.

Definition compress (st : state) (block : list Z) : state :=
  let M := le_words 16 block in
  let st' := fold_left (round M) (seq 0 64) st in
  State (add32 (rA st) (rA st')) (add32 (rB st) (rB st'))
        (add32 (rC st) (rC st')) (add32 (rD st) (rD st')).

(** Padding: a one bit, zeros up to 56 modulo 64, the bit length on 64
    bits, little-endian. *)
Definition pad (msg : list Z) : list Z :=
  let len := Z.of_nat (length msg) in
  msg ++ [0x80] ++ replicate (Z.to_nat ((55 - len) mod 64)) 0
      ++ le_bytes 8 ((8 * len) mod 2 ^ 64).

Fixpoint blocks (n : nat) (bs : list Z) : list (list Z) :=
  match n with
  | O => []
  | Datatypes.S n' => take 64 bs :: blocks n' (drop 64 bs)
  end.

Definition digest (msg : list Z) : list Z :=
  let p := pad msg in
  let st := fold_left compress (blocks (length p / 64)%nat p) init in
  le_bytes 4 (rA st) ++ le_bytes 4 (rB st)
    ++ le_bytes 4 (rC st) ++ le_bytes 4 (rD st).

End MD5.

(** Hexadecimal rendering, lower case. *)
Definition hex_digit (d : Z) : N :=
  if d <? 10 then Z.to_N (48 + d) else Z.to_N (87 + d).

Definition hex_byte (b : Z) : list N := [hex_digit (b / 16); hex_digit (b mod 16)].

Definition hexlify (bs : list Z) : list N := bs ≫= hex_byte.


(** ** [uuid.UUID(bytes=...)] and [str(UUID)]

    After the standard library: the sixteen bytes are read as one
    big-endian integer, printed with ['%032x'], and cut at 8, 12, 16, 20. *)
Inductive Exc :=
| LibError (msg : list N)           (* raised by the launcher library *)
| OSError (msg : list N)
| KeyError (key : list N)
| AttributeError (attr : string)
| UnboundLocalError (var : string)
| UnicodeEncodeError
| IndexError
| ValueError.

Inductive result (A : Type) :=
| Ok (a : A)
| Err (e : Exc).
Arguments Ok {A} a.
Arguments Err {A} e.

Definition int_from_bytes (bs : list Z) : Z :=
  fold_left (fun acc b => 256 * acc + b) bs 0.

Fixpoint hex_padded (width : nat) (x : Z) : list N :=
  match width with
  | O => []
  | S width' => hex_padded width' (x / 16) ++ [hex_digit (x mod 16)]
  end.

Definition uuid_str (bs : list Z) : result (list N) :=
  if bool_decide (length bs = 16%nat) then
    let hex := hex_padded 32 (int_from_bytes bs) in
    Ok (take 8 hex ++ pystr "-" ++ take 4 (drop 8 hex) ++ pystr "-"
        ++ take 4 (drop 12 hex) ++ pystr "-" ++ take 4 (drop 16 hex)
        ++ pystr "-" ++ drop 20 hex)
  else Err ValueError.

(** ** Helper funcs *)

(** The character class [[A-Za-z0-9_]]. *)
Definition word_class (c : N) : bool :=
  ((65 <=? c) && (c <=? 90) || (97 <=? c) && (c <=? 122)
   || (48 <=? c) && (c <=? 57) || (c =? 95))%N.

(** [re.fullmatch] of [cls+]: one or more characters of the class, and
    nothing else. *)
Fixpoint re_fullmatch_plus (cls : N -> bool) (s : list N) : bool :=
  match s with
  | [] => false
  | c :: s' =>
      cls c && match s' with [] => true | _ => re_fullmatch_plus cls s' end
  end.

(** A non-empty string is truthy. *)
Definition truthy (s : list N) : bool :=
  match s with [] => false | _ => true end.

Definition _validate_username (name : list N) : bool :=
  truthy name
  && ((3 <=? length name)%nat && (length name <=? 16)%nat)
  && re_fullmatch_plus word_class name.

(** ** The launcher object and what surrounds it *)

(** Values of the configuration dictionary, as [json.load] builds them.
    A [float] is kept as its binary64 bit pattern; the launcher never looks
    inside one. *)
Inductive value :=
| VNone
| VBool (b : bool)
| VInt (n : Z)
| VFloat (bits : Z)
| VStr (s : list N)
| VList (l : list value)
| VDict (d : list (list N * value)).

(** The attributes of [MelonLauncher] that the handlers read or write.
    [ms_profile] and [ms_token] do not exist until [_login_with_ms] has run
    ([hasattr] is [false] on [None]). *)
Record MelonLauncher := {
  username_var : list N;
  login_type_var : list N;
  version_var : list N;
  ram_var : Z;
  config : gmap (list N) value;
  ms_profile : option (gmap (list N) (list N));
  ms_token : option (list N)
}.

(** The file [melonclient_config.json], by the JSON value it holds (layout
    and key order are not represented).  [Malformed] is a text that
    [json.load] rejects.  A well-formed text that is not an object is left
    out: [__init__] raises on it at [self.config.get]. *)
Inductive File :=
| NoFile
| Malformed
| JsonObject (d : gmap (list N) value).

Record World := { self : MelonLauncher; config_file : File }.

Record Session := { s_name : list N; s_id : list N; s_token : list N }.

Record Options := {
  o_username : list N;
  o_uuid : list N;
  o_token : list N;
  jvmArguments : list (list N)
}.

(** What a handler does to the outside, in order. *)
Inductive Level := INFO | WARNING | ERROR.

Inductive Arg :=
| AStr (s : list N)
| AInt (n : Z)
| AExc (e : Exc)
| ASession (s : Session).

Inductive Box := showinfo | showwarning | showerror.

Inductive Event :=
| Logging (lvl : Level) (fmt : string) (args : list Arg)
| Messagebox (kind : Box) (title : string) (args : list Arg)
| OpenForWrite
| Import
| GetMinecraftDirectory
| GetInstalledVersions (mc_dir : list N)
| GetLatestVersion
| InstallMinecraftVersion (version_id mc_dir : list N)
| GetMinecraftCommand (version_id mc_dir : list N) (options : Options)
| Popen (cmd : list (list N))
| Destroy.

(** The launcher library [minecraft_launcher_lib], by what each call
    answers during one handler; a call may raise. *)
Record Lib := {
  get_minecraft_directory : result (list N);
  get_installed_versions : list N -> result (list (gmap (list N) (list N)));
  get_latest_version : result (gmap (list N) (list N));
  install_minecraft_version : list N -> list N -> result unit;
  get_minecraft_command :
    list N -> list N -> Options -> result (list (list N))
}.

(** [minecraft_launcher_lib = None]: the import raises [ImportError]. *)
Record Env := {
  minecraft_launcher_lib : option Lib;
  subprocess_Popen : list (list N) -> result unit;
  open_config_for_write : result unit
}.

(** How a launch attempt ends.  [Failed] carries the step that stopped it;
    [LaunchUnavailable] is the missing library; [Uncaught] is an exception
    that leaves the handler. *)
Inductive ErrorKind :=
| InvalidUsername
| NotAuthenticated
| VersionResolutionError
| InstallError
| LaunchError.

Inductive Outcome :=
| Done
| Failed (e : ErrorKind)
| LaunchUnavailable
| Uncaught (e : Exc).

(** ** Handlers as state transformers

    A statement either goes on with a value, or the handler returns, or an
    exception is under way. *)
Inductive Ctl (A : Type) :=
| Next (a : A)
| Return (o : Outcome)
| Raise (e : Exc).
Arguments Next {A} a.
Arguments Return {A} o.
Arguments Raise {A} e.

Definition M (A : Type) : Type := World -> Ctl A * World * list Event.

Definition ret {A} (a : A) : M A := fun w => (Next a, w, []).

Definition bind {A B} (m : M A) (k : A -> M B) : M B := fun w =>
  match m w with
  | (Next a, w1, ev1) =>
      match k a w1 with (r, w2, ev2) => (r, w2, ev1 ++ ev2) end
  | (Return o, w1, ev1) => (Return o, w1, ev1)
  | (Raise e, w1, ev1) => (Raise e, w1, ev1)
  end.

Declare Scope handler_scope.
Delimit Scope handler_scope with M.
Notation "x <- m ;; k" := (bind m (fun x => k))
  (at level 100, m at next level, right associativity) : handler_scope.
Notation "m ;; k" := (bind m (fun _ => k))
  (at level 100, right associativity) : handler_scope.

Local Open Scope handler_scope.

Definition return_ {A} (o : Outcome) : M A := fun w => (Return o, w, []).

Definition raise {A} (e : Exc) : M A := fun w => (Raise e, w, []).

Definition emit (e : Event) : M unit := fun w => (Next tt, w, [e]).

Definition reads {A} (f : MelonLauncher -> A) : M A :=
  fun w => (Next (f (self w)), w, []).

Definition lift {A} (r : result A) : M A :=
  match r with
  | Ok a => ret a
  | Err e => raise e
  end.

(** A call out of the program: the event, then the answer. *)
Definition call {A} (e : Event) (r : result A) : M A :=
  bind (emit e) (fun _ => lift r).

(** [try: body except Exception as exc: handler]. *)
Definition try_ {A} (body : M A) (handler : Exc -> M A) : M A := fun w =>
  match body w with
  | (Raise e, w1, ev1) =>
      match handler e w1 with (r, w2, ev2) => (r, w2, ev1 ++ ev2) end
  | r => r
  end.

Definition when (b : bool) (m : M unit) : M unit :=
  if b then m else ret tt.

Definition logging (lvl : Level) (fmt : string) (args : list Arg) : M unit :=
  emit (Logging lvl fmt args).

Definition messagebox (kind : Box) (title : string) (args : list Arg)
  : M unit :=
  emit (Messagebox kind title args).

(** [self.config[k] = v]. *)
Definition with_config (c : gmap (list N) value) (s : MelonLauncher)
  : MelonLauncher :=
  {| username_var := username_var s; login_type_var := login_type_var s;
     version_var := version_var s; ram_var := ram_var s; config := c;
     ms_profile := ms_profile s; ms_token := ms_token s |}.

Definition config_setitem (k : list N) (v : value) : M unit := fun w =>
  (Next tt,
   {| self := with_config (<[k := v]> (config (self w))) (self w);
      config_file := config_file w |},
   []).

(** The result of a whole handler. *)
Record Run := { outcome : Outcome; final : World; events : list Event }.

Definition run (m : M unit) (w : World) : Run :=
  match m w with
  | (Next _, w', ev) => {| outcome := Done; final := w'; events := ev |}
  | (Return o, w', ev) => {| outcome := o; final := w'; events := ev |}
  | (Raise e, w', ev) =>
      {| outcome := Uncaught e; final := w'; events := ev |}
  end.

(** ** Config persistence *)

Definition _load_config : M unit := fun w =>
  match config_file w with
  | JsonObject d =>
      (Next tt,
       {| self := with_config d (self w); config_file := config_file w |},
       [Logging INFO "Configuration loaded from file." []])
  | NoFile =>
      (Next tt,
       {| self := with_config ∅ (self w); config_file := config_file w |},
       [Logging INFO "No configuration file; starting with defaults." []])
  | Malformed =>
      (Next tt,
       {| self := with_config ∅ (self w); config_file := config_file w |},
       [Logging ERROR "Failed to load config: %s" []])
  end.

(** [json.dump(self.config, fp, indent=2)] into the file opened for
    writing.  The write is taken to complete once the file is open: the
    configuration holds JSON values only, so the serialisation itself does
    not raise.  An error of the operating system between opening and
    closing, which the [except] clause of [_save_config] would log while
    the file stays truncated, is not represented. *)
Definition dump_config : M unit := fun w =>
  (Next tt,
   {| self := self w; config_file := JsonObject (config (self w)) |}, []).

Definition _save_config (env : Env) : M unit :=
  try_ (call OpenForWrite (open_config_for_write env) ;;
        dump_config ;;
        logging INFO "Configuration saved." [])
       (fun exc => logging ERROR "Failed to save config: %s" [AExc exc])%M.

(** ** App shutdown *)

Definition _on_close (env : Env) : M unit :=
  (_save_config env ;;
   logging INFO "Exiting Melon Launcher." [] ;;
   emit Destroy)%M.

(** ** Login and launch logic *)

(** [fresh] is the string of the [uuid.uuid4()] drawn by this call. *)
Definition _login_with_ms (fresh : list N) : M unit :=
  (logging INFO "Microsoft login initiated (placeholder)." [] ;;
   messagebox showinfo "Microsoft Login" [] ;;
   (fun w =>
      (Next tt,
       {| self :=
            {| username_var := username_var (self w);
               login_type_var := login_type_var (self w);
               version_var := version_var (self w);
               ram_var := ram_var (self w);
               config := config (self w);
               ms_profile :=
                 Some (<[pystr "name" := pystr "Player"]>
                         (<[pystr "id" := fresh]> ∅));
               ms_token := Some (pystr "placeholder_token") |};
          config_file := config_file w |},
       [])) ;;
   logging INFO "Microsoft login placeholder complete (user: %s)."
     [AStr (pystr "Player")])%M.

(** [d[k]] on a dictionary of strings. *)
Definition getitem (d : gmap (list N) (list N)) (k : list N)
  : result (list N) :=
  match d !! k with
  | Some v => Ok v
  | None => Err (KeyError k)
  end.

(** [self.attr] on an attribute that may not exist yet. *)
Definition getattr {A} (name : string) (a : option A) : result A :=
  match a with
  | Some v => Ok v
  | None => Err (AttributeError name)
  end.

(** [next((v["id"] for v in installed
          if needle in v.get("id", "").lower()), None)]. *)
Fixpoint next_id (needle : list N)
    (installed : list (gmap (list N) (list N))) : result (option (list N)) :=
  match installed with
  | [] => Ok None
  | v :: rest =>
      if str_in needle (lower (default [] (v !! pystr "id"))) then
        match getitem v (pystr "id") with
        | Ok i => Ok (Some i)
        | Err e => Err e
        end
      else next_id needle rest
  end.

(** [minecraft_launcher_lib.utils.get_latest_version()["release"]]. *)
Definition latest_release (lib : Lib) : M (list N) :=
  (lv <- call GetLatestVersion (get_latest_version lib) ;;
   lift (getitem lv (pystr "release")))%M.

(** [not version_id], for [None] or a string. *)
Definition falsy (version_id : option (list N)) : bool :=
  match version_id with
  | None => true
  | Some s => negb (truthy s)
  end.

(** The body of the [try] under "Pick appropriate MC version".  The value
    is the pair [(version_id, game_type)] as the two variables stand after
    it.  With a [game_type] outside the three editions [version_id] is
    never assigned and reading it raises. *)
Definition pick_version (lib : Lib) (mc_dir game_type : list N)
  : M (list N * list N) :=
  (installed <- call (GetInstalledVersions mc_dir)
                     (get_installed_versions lib mc_dir) ;;
   version_id <-
     (if str_eqb game_type (pystr "Vanilla") then
        r <- latest_release lib ;; ret (Some r)
      else if str_eqb game_type (pystr "Forge") then
        lift (next_id (pystr "forge") installed)
      else if str_eqb game_type (pystr "Fabric") then
        lift (next_id (pystr "fabric") installed)
      else raise (UnboundLocalError "version_id")) ;;
   picked <-
     (if falsy version_id then
        r <- latest_release lib ;; ret (r, pystr "Vanilla")
      else ret (default [] version_id, game_type)) ;;
   logging INFO "Using version_id=%s (%s)" [AStr picked.1; AStr picked.2] ;;
   ret picked)%M.

(** The offline identifier: the MD5 digest of ["OfflinePlayer:" + username]
    with the version and variant bits overwritten in the [bytearray]. *)
Definition offline_digest (username : list N) : result (list Z) :=
  match encode (pystr "OfflinePlayer:" ++ username) with
  | None => Err UnicodeEncodeError
  | Some msg =>
      let digest := MD5.digest msg in
      match digest !! 6%nat with
      | None => Err IndexError
      | Some b6 =>
          let digest := <[6%nat := Z.lor (Z.land b6 0x0F) 0x30]> digest in
          match digest !! 8%nat with
          | None => Err IndexError
          | Some b8 =>
              Ok (<[8%nat := Z.lor (Z.land b8 0x3F) 0x80]> digest)
          end
      end
  end.

Definition offline_uuid (username : list N) : result (list N) :=
  match offline_digest username with
  | Ok digest => uuid_str digest
  | Err e => Err e
  end.

(** "Session data". *)
Definition build_session (login_type username : list N) : M Session :=
  if str_eqb login_type (pystr "offline") then
    ident <- lift (offline_uuid username) ;;
    ret {| s_name := username; s_id := ident; s_token := [] |}
  else
    profile <- reads ms_profile ;;
    profile <- lift (getattr "ms_profile" profile) ;;
    name <- lift (getitem profile (pystr "name")) ;;
    ident <- lift (getitem profile (pystr "id")) ;;
    token <- reads ms_token ;;
    token <- lift (getattr "ms_token" token) ;;
    ret {| s_name := name; s_id := ident; s_token := token |}.

(** [[f"-Xmx{ram_gb}G", f"-Xms{max(1, ram_gb // 2)}G"]]. *)
Definition min_heap (ram_gb : Z) : Z := Z.max 1 (ram_gb / 2).

Definition jvm_arguments (ram_gb : Z) : list (list N) :=
  [pystr "-Xmx" ++ str_of_int ram_gb ++ pystr "G";
   pystr "-Xms" ++ str_of_int (min_heap ram_gb) ++ pystr "G"].

Definition build_options (session : Session) (ram_gb : Z) : Options :=
  {| o_username := s_name session;
     o_uuid := s_id session;
     o_token := s_token session;
     jvmArguments := jvm_arguments ram_gb |}.

Fixpoint str_join (sep : list N) (parts : list (list N)) : list N :=
  match parts with
  | [] => []
  | [p] => p
  | p :: rest => p ++ sep ++ str_join sep rest
  end.

Definition hasattr {A} (a : option A) : bool :=
  match a with Some _ => true | None => false end.

(** The handler [_launch], section by section. *)

(** "Validate username if offline" and "Ensure Microsoft login happened". *)
Definition validate (login_type username : list N) : M unit :=
  when (str_eqb login_type (pystr "offline")
        && negb (_validate_username username))
    (logging WARNING "Invalid offline username: %s" [AStr username] ;;
     messagebox showerror "Invalid Username" [] ;;
     return_ (Failed InvalidUsername)) ;;
  logged_in <- reads (fun s => hasattr (ms_profile s)) ;;
  when (str_eqb login_type (pystr "microsoft") && negb logged_in)
    (logging WARNING "Microsoft login missing before launch." [] ;;
     messagebox showerror "Not Logged In" [] ;;
     return_ (Failed NotAuthenticated)).

(** "Persist config". *)
Definition persist_config (env : Env) (login_type username : list N)
    (ram_gb : Z) : M unit :=
  when (str_eqb login_type (pystr "offline"))
    (config_setitem (pystr "offline_username") (VStr username)) ;;
  config_setitem (pystr "login_type") (VStr login_type) ;;
  config_setitem (pystr "ram") (VInt ram_gb) ;;
  _save_config env.

(** "Import launcher lib". *)
Definition import_launcher_lib (env : Env) : M Lib :=
  emit Import ;;
  match minecraft_launcher_lib env with
  | Some lib => ret lib
  | None =>
      logging ERROR "minecraft_launcher_lib missing; aborting launch." [] ;;
      messagebox showwarning "Launch Unavailable" [] ;;
      return_ LaunchUnavailable
  end.

(** "Ensure version assets exist". *)
Definition ensure_installed (lib : Lib) (version_id mc_dir : list N)
  : M unit :=
  try_ (call (InstallMinecraftVersion version_id mc_dir)
             (install_minecraft_version lib version_id mc_dir))
       (fun exc =>
          logging ERROR "Installation of %s failed: %s"
            [AStr version_id; AExc exc] ;;
          messagebox showerror "Installation Error"
            [AStr version_id; AExc exc] ;;
          return_ (Failed InstallError)).

(** "Build JVM/MC command", from the [try] on. *)
Definition start_game (env : Env) (lib : Lib)
    (version_id mc_dir game_type : list N) (options : Options) : M unit :=
  try_ (cmd <- call (GetMinecraftCommand version_id mc_dir options)
                    (get_minecraft_command lib version_id mc_dir options) ;;
        logging INFO "Executing command: %s"
          [AStr (str_join (pystr " ") (take 8 cmd) ++ pystr " ...")] ;;
        call (Popen cmd) (subprocess_Popen env cmd) ;;
        messagebox showinfo "Launching" [AStr game_type] ;;
        logging INFO "Minecraft launched." [] ;;
        return_ Done)
       (fun exc =>
          logging ERROR "Launch error: %s" [AExc exc] ;;
          messagebox showerror "Launch Failed" [AExc exc] ;;
          return_ (Failed LaunchError)).

Definition _launch (env : Env) : M unit :=
  logging INFO "Launch initiated by user." [] ;;
  login_type <- reads login_type_var ;;
  username <- reads (fun s => strip (username_var s)) ;;
  game_type <- reads version_var ;;
  ram_gb <- reads ram_var ;;
  logging INFO "Settings – mode=%s, user=%s, type=%s, RAM=%sG"
    [AStr login_type; AStr username; AStr game_type; AInt ram_gb] ;;
  validate login_type username ;;
  persist_config env login_type username ram_gb ;;
  lib <- import_launcher_lib env ;;
  mc_dir <- call GetMinecraftDirectory (get_minecraft_directory lib) ;;
  picked <- try_ (pick_version lib mc_dir game_type)
              (fun exc =>
                 logging ERROR "Version selection failed: %s" [AExc exc] ;;
                 messagebox showerror "Launch Error" [AExc exc] ;;
                 return_ (Failed VersionResolutionError)) ;;
  let version_id := picked.1 in
  let game_type := picked.2 in
  ensure_installed lib version_id mc_dir ;;
  session <- build_session login_type username ;;
  logging INFO "Session for launch: %s" [ASession session] ;;
  start_game env lib version_id mc_dir game_type
    (build_options session ram_gb).

(** * Vocabulary of the statements *)

(** ** User names *)

Definition ascii_letter (c : N) : Prop := (65 <= c <= 90 \/ 97 <= c <= 122)%N.

Definition ascii_digit (c : N) : Prop := (48 <= c <= 57)%N.

Definition username_char (c : N) : Prop :=
  ascii_letter c \/ ascii_digit c \/ c = 95%N.

Definition valid_username (name : list N) : Prop :=
  (3 <= length name <= 16)%nat /\ Forall username_char name.

(** ** Identifiers *)

(** A byte with its high nibble replaced by [3], and a byte with its two top
    bits replaced by [10]; the other bits stay. *)
Definition set_version3 (b : Z) : Z := 0x30 + b mod 16.

Definition set_variant10 (b : Z) : Z := 0x80 + b mod 64.

(** Sixteen bytes as lower-case hexadecimal in groups of 4, 2, 2, 2 and 6
    bytes, joined by hyphens. *)
Definition uuid_render (bs : list Z) : list N :=
  hexlify (take 4 bs) ++ pystr "-" ++ hexlify (take 2 (drop 4 bs))
    ++ pystr "-" ++ hexlify (take 2 (drop 6 bs)) ++ pystr "-"
    ++ hexlify (take 2 (drop 8 bs)) ++ pystr "-" ++ hexlify (drop 10 bs).

Definition steve_uuid : list N :=
  pystr "5627dd98-e6be-3c21-b8a8-e92344183641".

(** ** Versions *)

Definition substring (needle hay : list N) : Prop :=
  exists pre post, hay = pre ++ needle ++ post.

(** [ident] has a part that equals [name] when letter case is ignored. *)
Definition contains_ci (name ident : list N) : Prop :=
  exists pre mid post, ident = pre ++ mid ++ post /\ lower mid = lower name.

(** [v.get("id", "")]. *)
Definition get_id (v : gmap (list N) (list N)) : list N :=
  default [] (v !! pystr "id").

(** The modloader editions of the combobox, each with the name looked for. *)
Definition loaders : list (list N * list N) :=
  [(pystr "Forge", pystr "forge"); (pystr "Fabric", pystr "fabric")].

Definition using_version (version_id game_type : list N) : Event :=
  Logging INFO "Using version_id=%s (%s)" [AStr version_id; AStr game_type].

(** ** Launch attempts *)

Definition offline (s : MelonLauncher) : bool :=
  str_eqb (login_type_var s) (pystr "offline").

Definition microsoft (s : MelonLauncher) : bool :=
  str_eqb (login_type_var s) (pystr "microsoft").

(** Neither of the two checks at the head of [_launch] stops the attempt. *)
Definition passes_validation (s : MelonLauncher) : bool :=
  negb (offline s && negb (_validate_username (strip (username_var s))))
  && negb (microsoft s && negb (hasattr (ms_profile s))).

(** The configuration dictionary after "Persist config". *)
Definition updated_config (s : MelonLauncher) : gmap (list N) value :=
  <[pystr "ram" := VInt (ram_var s)]>
    (<[pystr "login_type" := VStr (login_type_var s)]>
       (if offline s
        then <[pystr "offline_username" := VStr (strip (username_var s))]>
               (config s)
        else config s)).

Definition persisted (env : Env) (w : World) : World :=
  {| self := with_config (updated_config (self w)) (self w);
     config_file := match open_config_for_write env with
                    | Ok _ => JsonObject (updated_config (self w))
                    | Err _ => config_file w
                    end |}.

Definition preference_keys : list (list N) :=
  [pystr "offline_username"; pystr "login_type"; pystr "ram"].

(** A call into the launcher library. *)
Definition library_call (e : Event) : bool :=
  match e with
  | GetMinecraftDirectory | GetInstalledVersions _ | GetLatestVersion
  | InstallMinecraftVersion _ _ | GetMinecraftCommand _ _ _ => true
  | _ => false
  end.

(** What the options of a command construction owe to the launcher state
    [w] in which the attempt started. *)
Definition command_ok (w : World) (e : Event) : Prop :=
  match e with
  | GetMinecraftCommand _ _ o =>
      jvmArguments o = jvm_arguments (ram_var (self w))
      /\ (offline (self w) = true ->
          o_username o = strip (username_var (self w))
          /\ offline_uuid (strip (username_var (self w))) = Ok (o_uuid o)
          /\ o_token o = [])
  | _ => True
  end.

(** An outcome other than the two validation failures. *)
Definition late (o : Outcome) : Prop :=
  o <> Failed InvalidUsername /\ o <> Failed NotAuthenticated.

Definition with_username (u : list N) (w : World) : World :=
  {| self := {| username_var := u;
                login_type_var := login_type_var (self w);
                version_var := version_var (self w);
                ram_var := ram_var (self w);
                config := config (self w);
                ms_profile := ms_profile (self w);
                ms_token := ms_token (self w) |};
     config_file := config_file w |}.

(** Two worlds that differ at most in the text of the username entry, and
    there only by what [strip] removes. *)
Definition same_but_username (w1 w2 : World) : Prop :=
  strip (username_var (self w1)) = strip (username_var (self w2))
  /\ login_type_var (self w1) = login_type_var (self w2)
  /\ version_var (self w1) = version_var (self w2)
  /\ ram_var (self w1) = ram_var (self w2)
  /\ config (self w1) = config (self w2)
  /\ ms_profile (self w1) = ms_profile (self w2)
  /\ ms_token (self w1) = ms_token (self w2)
  /\ config_file w1 = config_file w2.

(** ** A program logic for handlers *)

(** [sat w m post]: running [m] in [w] ends in a result, a world and events
    that [post] accepts. *)
Definition sat {A} (w : World) (m : M A)
    (post : Ctl A -> World -> list Event -> Prop) : Prop :=
  match m w with (r, w', ev) => post r w' ev end.

(** [quiet E w m Q]: [m] leaves the world [w] as it is, emits only events in
    [E], goes on only with values in [Q], and returns only late outcomes. *)
Definition quiet (E : Event -> Prop) (w : World) {A} (m : M A)
    (Q : A -> Prop) : Prop :=
  sat w m (fun r w' ev =>
             w' = w /\ Forall E ev
             /\ match r with
                | Next a => Q a
                | Return o => late o
                | Raise _ => True
                end).

(** [respects m]: [m] cannot tell apart two worlds that are the same but for
    the username entry. *)
Definition respects {A} (m : M A) : Prop :=
  forall w1 w2, same_but_username w1 w2 ->
    (m w1).1.1 = (m w2).1.1
    /\ (m w1).2 = (m w2).2
    /\ same_but_username (m w1).1.2 (m w2).1.2.

Definition as_run (r : Ctl unit) (w : World) (ev : list Event) : Run :=
  {| outcome := match r with
                | Next _ => Done
                | Return o => o
                | Raise e => Uncaught e
                end;
     final := w; events := ev |}.

(** The summary of a launch attempt: who stopped it, and what it left. *)
Definition launch_post (env : Env) (w : World) (r : Run) : Prop :=
  Forall (command_ok w) (events r)
  /\ match outcome r with
     | Failed InvalidUsername =>
         offline (self w) = true
         /\ _validate_username (strip (username_var (self w))) = false
         /\ final r = w
     | Failed NotAuthenticated =>
         microsoft (self w) = true /\ ms_profile (self w) = None
         /\ final r = w
     | _ => passes_validation (self w) = true /\ final r = persisted env w
     end.

(** ** Sample inputs *)

Definition fresh_launcher (login_type username game_type : string) (ram : Z)
  : World :=
  {| self := {| username_var := pystr username;
                login_type_var := pystr login_type;
                version_var := pystr game_type;
                ram_var := ram;
                config := ∅;
                ms_profile := None;
                ms_token := None |};
     config_file := NoFile |}.



(** A library with one vanilla and one Forge version installed. *)
Definition sample_installed : list (gmap (list N) (list N)) :=
  [ {[ pystr "id" := pystr "1.20.1" ]};
    {[ pystr "id" := pystr "1.20.1-Forge-47.2.0" ]} ].

Definition sample_latest : gmap (list N) (list N) :=
  {[ pystr "release" := pystr "1.21" ]}.

Definition sample_lib : Lib :=
  {| get_minecraft_directory := Ok (pystr ".minecraft");
     get_installed_versions := fun _ => Ok sample_installed;
     get_latest_version := Ok sample_latest;
     install_minecraft_version := fun _ _ => Ok tt;
     get_minecraft_command := fun v _ _ => Ok [pystr "java"; v] |}.

Definition sample_env : Env :=
  {| minecraft_launcher_lib := Some sample_lib;
     subprocess_Popen := fun _ => Ok tt;
     open_config_for_write := Ok tt |}.

(** * Start-up *)

(** What the platform answers to [_detect_max_ram].  On Windows, the field
    [ullTotalPhys] after the call (or the exception raised on the way).  On
    Linux, the number that [int(line.split()[1])] reads on the first line of
    [/proc/meminfo] starting with "MemTotal:", in kB; [Ok None] when no line
    starts so; [Err] when opening, reading or parsing raises.  On macOS, the
    number [sysctl -n hw.memsize] prints, in bytes; [Ok None] when its return
    code is not zero; [Err] when running it or parsing raises. *)
Inductive Platform :=
| Windows (ullTotalPhys : result Z)
| Linux (MemTotal : result (option Z))
| Darwin (hw_memsize : result (option Z))
| OtherSystem.

(** The detected memory in GB, or [None], and what is logged. *)
Definition _detect_max_ram (system : Platform) : option Z * list Event :=
  let failed exc :=
    (None, [Logging WARNING "RAM detection failed: %s" [AExc exc]]) in
  match system with
  | Windows (Ok ullTotalPhys) => (Some (Z.max 1 (ullTotalPhys / 1024 ^ 3)), [])
  | Windows (Err exc) => failed exc
  | Linux (Ok (Some total_kb)) =>
      (Some (Z.max 1 (total_kb * 1024 / 1024 ^ 3)), [])
  | Linux (Ok None) => (None, [])
  | Linux (Err exc) => failed exc
  | Darwin (Ok (Some memsize)) => (Some (Z.max 1 (memsize / 1024 ^ 3)), [])
  | Darwin (Ok None) => (None, [])
  | Darwin (Err exc) => failed exc
  | OtherSystem => (None, [])
  end.

(** [x or d] for [x] an [int] or [None]. *)
Definition or_ (x : option Z) (d : Z) : Z :=
  match x with
  | Some n => if n =? 0 then d else n
  | None => d
  end.

(** [StringVar.set(v)] and [IntVar.set(v)], by what [get()] returns after
    them, for a stored value of the type the launcher writes: a string, an
    integer.  A value of another JSON type goes through Tk's own conversion
    (the launcher does start on it, with the text Tk makes of the value);
    that conversion is not represented, and [None] stands for a start-up
    outside what is represented here. *)
Definition string_var_set (v : value) : option (list N) :=
  match v with VStr s => Some s | _ => None end.

Definition int_var_set (v : value) : option Z :=
  match v with VInt n => Some n | _ => None end.

(** The launcher as [__init__] leaves it, with the range of the memory
    slider. *)
Record Started := { app : MelonLauncher; ram_max : Z }.

(** The variables as the constructors of [__init__] and [_build_ui] set
    them. *)
Definition tk_initial : MelonLauncher :=
  {| username_var := []; login_type_var := pystr "offline";
     version_var := pystr "Vanilla"; ram_var := 0; config := ∅;
     ms_profile := None; ms_token := None |}.

(** [__init__], without the widgets: logging, "State variables", "Load
    persisted configuration".  The result is [None] when a stored value is
    outside what [string_var_set] and [int_var_set] represent. *)
Definition __init__ (system : Platform) (file : File)
  : option Started * list Event :=
  let (detected, ev_detect) := _detect_max_ram system in
  let ram_max := or_ detected 16 in
  match _load_config {| self := tk_initial; config_file := file |} with
  | (_, w, ev_load) =>
      let c := config (self w) in
      let username :=
        match c !! pystr "offline_username" with
        | Some v => string_var_set v
        | None => Some (username_var tk_initial)
        end in
      let login_type :=
        match c !! pystr "login_type" with
        | Some v => string_var_set v
        | None => Some (login_type_var tk_initial)
        end in
      let ram :=
        int_var_set (default (VInt (Z.min 4 ram_max)) (c !! pystr "ram")) in
      (match username, login_type, ram with
       | Some u, Some l, Some r =>
           Some {| app := {| username_var := u; login_type_var := l;
                             version_var := version_var tk_initial;
                             ram_var := r; config := c;
                             ms_profile := None; ms_token := None |};
                   ram_max := ram_max |}
       | _, _, _ => None
       end,
       [Logging INFO "Melon Launcher starting up." []] ++ ev_detect
         ++ ev_load ++ [Logging INFO "UI initialised." []])
  end.

(** * Vocabulary of the launch paths *)

(** The two log lines every attempt starts with. *)
Definition launch_head (w : World) : list Event :=
  [Logging INFO "Launch initiated by user." [];
   Logging INFO "Settings – mode=%s, user=%s, type=%s, RAM=%sG"
     [AStr (login_type_var (self w)); AStr (strip (username_var (self w)));
      AStr (version_var (self w)); AInt (ram_var (self w))]].

(** What [_save_config] does to the outside. *)
Definition save_events (env : Env) : list Event :=
  OpenForWrite ::
  match open_config_for_write env with
  | Ok _ => [Logging INFO "Configuration saved." []]
  | Err exc => [Logging ERROR "Failed to save config: %s" [AExc exc]]
  end.

(** The events of version resolution. *)
Definition resolution_event (e : Event) : Prop :=
  match e with
  | GetInstalledVersions _ | GetLatestVersion | Logging _ _ _ => True
  | _ => False
  end.

(** Installing, building a command, starting a process. *)
Definition installs (e : Event) : bool :=
  match e with InstallMinecraftVersion _ _ => true | _ => false end.

Definition builds_command (e : Event) : bool :=
  match e with GetMinecraftCommand _ _ _ => true | _ => false end.

Definition spawns (e : Event) : bool :=
  match e with Popen _ => true | _ => false end.

(** How many of the events satisfy [p]; a handler that emits at most [n]
    such events, in whatever state it runs. *)
Definition occurrences (p : Event -> bool) (ev : list Event) : nat :=
  length (List.filter p ev).

Definition at_most (p : Event -> bool) (n : nat) {A} (m : M A) : Prop :=
  forall w, (occurrences p (m w).2 <= n)%nat.

(** The launcher after [_login_with_ms]. *)
Definition logged_in (fresh : list N) (w : World) : World :=
  (_login_with_ms fresh w).1.2.

(** ** Identifiers as text *)
Definition hex_char (c : N) : Prop :=
  (48 <= c <= 57 \/ 97 <= c <= 102)%N.

(** The shape of a version-3 UUID in text: 36 characters, hyphens at 8, 13,
    18 and 23, lower-case hexadecimal digits elsewhere, [3] at 14, and one
    of [8], [9], [a], [b] at 19. *)
Definition uuid3_text (s : list N) : Prop :=
  length s = 36%nat
  /\ (forall i c, s !! i = Some c ->
        if bool_decide (i ∈ [8; 13; 18; 23]%nat) then c = 45%N
        else hex_char c)
  /\ s !! 14%nat = Some 51%N
  /\ exists c, s !! 19%nat = Some c /\ c ∈ [56; 57; 97; 98]%N.

(** ** More sample inputs *)

Definition broken : Exc := OSError (pystr "broken").

Definition answer {A} (fails : bool) (a : A) : result A :=
  if fails then Err broken else Ok a.

(** [sample_lib] with the call of number [stage] failing: 0 the directory,
    1 the installed versions, 2 the latest version, 3 the installation, 4
    the command. *)
Definition faulty_lib (stage : nat) : Lib :=
  {| get_minecraft_directory := answer (stage =? 0)%nat (pystr ".minecraft");
     get_installed_versions :=
       fun _ => answer (stage =? 1)%nat sample_installed;
     get_latest_version := answer (stage =? 2)%nat sample_latest;
     install_minecraft_version := fun _ _ => answer (stage =? 3)%nat tt;
     get_minecraft_command :=
       fun v _ _ => answer (stage =? 4)%nat [pystr "java"; v] |}.

(** Stage 5: the process cannot be started. *)
Definition faulty_env (stage : nat) : Env :=
  {| minecraft_launcher_lib := Some (faulty_lib stage);
     subprocess_Popen := fun _ => answer (stage =? 5)%nat tt;
     open_config_for_write := Ok tt |}.


Definition env_read_only : Env :=
  {| minecraft_launcher_lib := Some sample_lib;
     subprocess_Popen := fun _ => Ok tt;
     open_config_for_write := Err (OSError (pystr "read-only")) |}.

(** ** Commands *)

(** A property of the options of every command construction. *)
Definition on_command (P : Options -> Prop) (e : Event) : Prop :=
  match e with
  | GetMinecraftCommand _ _ o => P o
  | _ => True
  end.

(** The options are built from the session of the attempt and the requested
    memory. *)
Definition from_session (env : Env) (w : World) (o : Options) : Prop :=
  exists session,
    (build_session (login_type_var (self w)) (strip (username_var (self w)))
       (persisted env w)).1.1 = Next session
    /\ o = build_options session (ram_var (self w)).

Definition placeholder_session (fresh : list N) : Session :=
  {| s_name := pystr "Player"; s_id := fresh;
     s_token := pystr "placeholder_token" |}.

Definition sample_uuid4 : list N :=
  pystr "0f8fad5b-d9cb-469f-a165-70867728950e".

(** How an attempt that got to the library may end, and that a failure was
    shown in an error box. *)
Definition reported (r : Run) : Prop :=
  outcome r = Done
  \/ (outcome r ∈ [Failed VersionResolutionError; Failed InstallError;
                    Failed LaunchError]
      /\ exists title args, Messagebox showerror title args ∈ events r).

(** An offline launcher whose configuration, loaded from the file, holds a
    key the launcher does not know. *)
Definition themed_launcher : World :=
  {| self := {| username_var := pystr "Steve";
                login_type_var := pystr "offline";
                version_var := pystr "Vanilla";
                ram_var := 4;
                config := {[ pystr "theme" := VStr (pystr "dark") ]};
                ms_profile := None;
                ms_token := None |};
     config_file := JsonObject {[ pystr "theme" := VStr (pystr "dark") ]} |}.

(** * Lemmas *)

(** ** The validator *)

Lemma word_class_spec c : word_class c = true <-> username_char c.
Proof.
  unfold word_class, username_char, ascii_letter, ascii_digit.
  rewrite !orb_true_iff, !andb_true_iff, !N.leb_le, N.eqb_eq. tauto.
Qed.

Lemma re_fullmatch_plus_spec cls s :
  re_fullmatch_plus cls s = true <-> s <> [] /\ Forall (fun c => cls c = true) s.
Proof.
  induction s as [|c s IH]; simpl.
  - split; [discriminate | intros [H _]; congruence].
  - rewrite andb_true_iff. destruct s as [|c' s'].
    + split.
      * intros [Hc _]. split; [discriminate | repeat constructor; exact Hc].
      * intros [_ H]. inversion H; subst. split; [assumption | reflexivity].
    + rewrite IH. split.
      * intros [Hc [_ H]]. split; [discriminate | constructor; assumption].
      * intros [_ H]. inversion H; subst.
        split; [assumption | split; [discriminate | assumption]].
Qed.

Lemma validate_username_iff name :
  _validate_username name = true <-> valid_username name.
Proof.
  unfold _validate_username, valid_username.
  rewrite !andb_true_iff, re_fullmatch_plus_spec, !Nat.leb_le.
  setoid_rewrite word_class_spec. split.
  - intros [[_ Hlen] [_ Hall]]. split; assumption.
  - intros [Hlen Hall]. destruct name as [|c name]; [simpl in Hlen; lia|].
    repeat split; try discriminate; try tauto; lia.
Qed.

Lemma word_class_not_space c : word_class c = true -> isspace c = false.
Proof.
  rewrite word_class_spec. unfold username_char, ascii_letter, ascii_digit, isspace.
  intros H.
  repeat (apply orb_false_iff; split);
    try (apply andb_false_iff); rewrite ?N.leb_gt, ?N.eqb_neq; lia.
Qed.

(** ** [strip] *)
Lemma lstrip_spaces l s :
  Forall (fun c => isspace c = true) l -> lstrip (l ++ s) = lstrip s.
Proof. induction 1 as [|c l Hc _ IH]; simpl; [reflexivity | rewrite Hc; exact IH]. Qed.

Lemma lstrip_head c s : isspace c = false -> lstrip (c :: s) = c :: s.
Proof. intros H. simpl. rewrite H. reflexivity. Qed.

Lemma strip_padded l core r :
  Forall (fun c => isspace c = true) l ->
  Forall (fun c => isspace c = true) r ->
  core <> [] ->
  Forall (fun c => isspace c = false) core ->
  strip (l ++ core ++ r) = core.
Proof.
  intros Hl Hr Hne Hcore. unfold strip, rstrip.
  rewrite lstrip_spaces by assumption.
  destruct core as [|c core]; [congruence|].
  inversion Hcore as [|? ? Hc Hrest]; subst.
  change ((c :: core) ++ r) with (c :: (core ++ r)).
  rewrite lstrip_head by assumption.
  change (c :: core ++ r) with ((c :: core) ++ r).
  rewrite rev_app_distr, lstrip_spaces by (apply Forall_rev; assumption).
  destruct (rev (c :: core)) as [|z zs] eqn:Hrev.
  - apply (f_equal (@length N)) in Hrev. rewrite length_rev in Hrev. discriminate.
  - assert (Hz : isspace z = false).
    { assert (Hin : In z (c :: core))
        by (apply in_rev; rewrite Hrev; left; reflexivity).
      apply list_elem_of_In in Hin.
      rewrite Forall_forall in Hcore. apply Hcore, Hin. }
    rewrite lstrip_head by assumption. rewrite <- Hrev. apply rev_involutive.
Qed.

(** ** [encode] on ASCII text *)
Lemma encode_ascii s :
  Forall (fun c => (c < 128)%N) s -> encode s = Some (Z.of_N <$> s).
Proof.
  induction 1 as [|c s Hc _ IH]; simpl; [reflexivity|].
  rewrite IH. unfold utf8_char.
  destruct (Z.ltb_spec (Z.of_N c) 128); [reflexivity | lia].
Qed.

Lemma username_char_ascii c : username_char c -> (c < 128)%N.
Proof. unfold username_char, ascii_letter, ascii_digit. lia. Qed.

(** ** Shape of an MD5 digest *)
Lemma le_bytes_length n w : length (MD5.le_bytes n w) = n.
Proof. revert w; induction n; intros; simpl; [reflexivity | f_equal; apply IHn]. Qed.

Lemma le_bytes_range n w : Forall (fun b => 0 <= b < 256) (MD5.le_bytes n w).
Proof.
  revert w; induction n; intros; simpl; constructor.
  - apply Z.mod_pos_bound. lia.
  - apply IHn.
Qed.

Lemma digest_length msg : length (MD5.digest msg) = 16%nat.
Proof. unfold MD5.digest. cbv zeta. rewrite !length_app, !le_bytes_length. reflexivity. Qed.

Lemma digest_range msg : Forall (fun b => 0 <= b < 256) (MD5.digest msg).
Proof. unfold MD5.digest. cbv zeta. rewrite !Forall_app. repeat split; apply le_bytes_range. Qed.

(** ** Rendering of sixteen bytes *)
Lemma int_from_bytes_snoc bs b :
  int_from_bytes (bs ++ [b]) = 256 * int_from_bytes bs + b.
Proof. unfold int_from_bytes. rewrite fold_left_app. reflexivity. Qed.

Lemma hexlify_snoc bs b : hexlify (bs ++ [b]) = hexlify bs ++ hex_byte b.
Proof.
  unfold hexlify. rewrite bind_app. reflexivity.
Qed.

Lemma hex_padded_bytes bs :
  Forall (fun b => 0 <= b < 256) bs ->
  hex_padded (2 * length bs) (int_from_bytes bs) = hexlify bs.
Proof.
  induction bs as [|b bs IH] using rev_ind; intros Hall; [reflexivity|].
  apply Forall_app in Hall as [Hbs Hb]. inversion Hb as [|? ? Hb256 _]; subst.
  rewrite length_app, int_from_bytes_snoc, hexlify_snoc. simpl length.
  replace (2 * (length bs + 1))%nat with (S (S (2 * length bs))) by lia.
  change (hex_padded (S (S ?n)) ?x)
    with ((hex_padded n (x / 16 / 16) ++ [hex_digit (x / 16 mod 16)])
            ++ [hex_digit (x mod 16)]).
  set (x := int_from_bytes bs) in *.
  replace ((256 * x + b) / 16 / 16) with x.
  2:{ rewrite Z.div_div by lia. change (16 * 16) with 256.
      rewrite Z.mul_comm, Z.div_add_l by lia. rewrite Z.div_small by lia. lia. }
  replace ((256 * x + b) / 16 mod 16) with (b / 16).
  2:{ replace (256 * x + b) with (b + (16 * x) * 16) by lia.
      rewrite Z.div_add by lia.
      replace (b / 16 + 16 * x) with (b / 16 + x * 16) by lia.
      rewrite Z.mod_add by lia. rewrite Z.mod_small; [reflexivity|].
      split; [apply Z.div_pos; lia | apply Z.div_lt_upper_bound; lia]. }
  replace ((256 * x + b) mod 16) with (b mod 16).
  2:{ replace (256 * x + b) with (b + (16 * x) * 16) by lia.
      rewrite Z.mod_add by lia. reflexivity. }
  rewrite IH by assumption. rewrite <- app_assoc. reflexivity.
Qed.

Lemma uuid_str_render bs :
  length bs = 16%nat ->
  Forall (fun b => 0 <= b < 256) bs ->
  uuid_str bs = Ok (uuid_render bs).
Proof.
  intros Hlen Hall. unfold uuid_str.
  rewrite bool_decide_eq_true_2 by assumption.
  change 32%nat with (2 * 16)%nat. rewrite <- Hlen.
  rewrite hex_padded_bytes by assumption.
  do 17 (destruct bs as [|? bs]; try discriminate Hlen).
  reflexivity.
Qed.

(** ** Version and variant bits *)
Lemma version_bits b :
  0 <= b < 256 -> Z.lor (Z.land b 0x0F) 0x30 = set_version3 b.
Proof.
  intros Hb. unfold set_version3.
  assert (H : forallb (fun n => let b := Z.of_nat n in
                         Z.lor (Z.land b 0x0F) 0x30 =? 48 + b mod 16)
                      (seq 0 256) = true) by (vm_compute; reflexivity).
  rewrite forallb_forall in H. specialize (H (Z.to_nat b)).
  cbv zeta in H. rewrite Z2Nat.id in H by lia.
  apply Z.eqb_eq, H, in_seq. lia.
Qed.

Lemma variant_bits b :
  0 <= b < 256 -> Z.lor (Z.land b 0x3F) 0x80 = set_variant10 b.
Proof.
  intros Hb. unfold set_variant10.
  assert (H : forallb (fun n => let b := Z.of_nat n in
                         Z.lor (Z.land b 0x3F) 0x80 =? 128 + b mod 64)
                      (seq 0 256) = true) by (vm_compute; reflexivity).
  rewrite forallb_forall in H. specialize (H (Z.to_nat b)).
  cbv zeta in H. rewrite Z2Nat.id in H by lia.
  apply Z.eqb_eq, H, in_seq. lia.
Qed.

Lemma offline_digest_spec username msg :
  encode (pystr "OfflinePlayer:" ++ username) = Some msg ->
  exists b6 b8,
    MD5.digest msg !! 6%nat = Some b6 /\
    MD5.digest msg !! 8%nat = Some b8 /\
    offline_digest username =
      Ok (<[8%nat := set_variant10 b8]>
            (<[6%nat := set_version3 b6]> (MD5.digest msg))).
Proof.
  intros Henc. unfold offline_digest. rewrite Henc.
  pose proof (digest_length msg) as Hlen.
  pose proof (digest_range msg) as Hrange.
  destruct (lookup_lt_is_Some_2 (MD5.digest msg) 6) as [b6 H6]; [lia|].
  destruct (lookup_lt_is_Some_2 (MD5.digest msg) 8) as [b8 H8]; [lia|].
  exists b6, b8. rewrite H6. cbv zeta.
  rewrite list_lookup_insert_ne, H8 by lia.
  rewrite Forall_lookup in Hrange.
  rewrite version_bits by (apply (Hrange _ _ H6)).
  rewrite variant_bits by (apply (Hrange _ _ H8)).
  auto.
Qed.

Lemma Ok_inj {A} (a b : A) : Ok a = Ok b -> a = b.
Proof. intros H. injection H as H. exact H. Qed.

Lemma patched_digest_shape digest b6 b8 :
  length digest = 16%nat ->
  Forall (fun b => 0 <= b < 256) digest ->
  let bytes := <[8%nat := set_variant10 b8]>
                 (<[6%nat := set_version3 b6]> digest) in
  length bytes = 16%nat /\ Forall (fun b => 0 <= b < 256) bytes.
Proof.
  intros Hlen Hrange. cbv zeta. split.
  - rewrite !length_insert. exact Hlen.
  - apply Forall_insert; [apply Forall_insert; [exact Hrange|]|].
    + unfold set_version3. pose proof (Z.mod_pos_bound b6 16). lia.
    + unfold set_variant10. pose proof (Z.mod_pos_bound b8 64). lia.
Qed.

Lemma offline_uuid_render username bytes :
  offline_digest username = Ok bytes ->
  length bytes = 16%nat ->
  Forall (fun b => 0 <= b < 256) bytes ->
  offline_uuid username = Ok (uuid_render bytes).
Proof.
  intros Hd Hlen Hrange. unfold offline_uuid. rewrite Hd.
  apply uuid_str_render; assumption.
Qed.

Lemma encode_offline_player username :
  Forall username_char username ->
  encode (pystr "OfflinePlayer:" ++ username)
  = Some (Z.of_N <$> (pystr "OfflinePlayer:" ++ username)).
Proof.
  intros H. apply encode_ascii, Forall_app. split.
  - vm_compute. repeat constructor.
  - eapply Forall_impl; [exact H | apply username_char_ascii].
Qed.

(** ** Substrings and letter case *)
Lemma startswith_spec hay needle :
  startswith hay needle = true <-> exists post, hay = needle ++ post.
Proof.
  revert hay; induction needle as [|n needle IH]; intros hay; simpl.
  - split; [intros _; exists hay; reflexivity | reflexivity].
  - destruct hay as [|h hay].
    + split; [discriminate | intros [post H]; discriminate].
    + rewrite andb_true_iff, N.eqb_eq, IH. split.
      * intros [-> [post ->]]. exists post. reflexivity.
      * intros [post H]. injection H as -> ->. eauto.
Qed.

Lemma str_in_spec needle hay :
  str_in needle hay = true <-> substring needle hay.
Proof.
  unfold substring. induction hay as [|h hay IH]; simpl.
  - rewrite orb_false_r, startswith_spec. split.
    + intros [post H]. exists [], post. exact H.
    + intros (pre & post & H). symmetry in H.
      apply app_eq_nil in H as [-> H]. exists post. symmetry. exact H.
  - rewrite orb_true_iff, startswith_spec, IH. split.
    + intros [[post H] | (pre & post & H)].
      * exists [], post. exact H.
      * exists (h :: pre), post. rewrite H. reflexivity.
    + intros (pre & post & H). destruct pre as [|p pre].
      * left. exists post. exact H.
      * right. simpl in H. injection H as _ H. eauto.
Qed.

Lemma lower_app a b : lower (a ++ b) = lower a ++ lower b.
Proof. apply fmap_app. Qed.

Lemma lower_char_idemp c : lower_char (lower_char c) = lower_char c.
Proof.
  unfold lower_char.
  destruct ((65 <=? c) && (c <=? 90))%N eqn:E; [|rewrite E; reflexivity].
  apply andb_true_iff in E as [E1 E2]. apply N.leb_le in E1, E2.
  destruct ((65 <=? c + 32) && (c + 32 <=? 90))%N eqn:E'; [|reflexivity].
  apply andb_true_iff in E' as [_ E']. apply N.leb_le in E'. lia.
Qed.

Lemma lower_idemp s : lower (lower s) = lower s.
Proof.
  unfold lower. rewrite <- list_fmap_compose. apply list_fmap_ext.
  intros _ c _. apply lower_char_idemp.
Qed.

Lemma str_in_lower name ident :
  str_in (lower name) (lower ident) = true <-> contains_ci name ident.
Proof.
  rewrite str_in_spec. unfold substring, contains_ci. split.
  - intros (pre & post & H).
    apply fmap_app_inv in H as (p & rest & -> & Hrest & ->).
    symmetry in Hrest.
    apply fmap_app_inv in Hrest as (m & q & Hm & -> & ->).
    exists p, m, q. split; [reflexivity | symmetry; exact Hm].
  - intros (pre & mid & post & -> & Hmid).
    exists (lower pre), (lower post). rewrite !lower_app, Hmid. reflexivity.
Qed.

Lemma str_in_needle needle ident :
  lower needle = needle ->
  str_in needle (lower ident) = true <-> contains_ci needle ident.
Proof. intros H. rewrite <- H at 1. apply str_in_lower. Qed.

Lemma contains_ci_nonempty needle ident :
  needle <> [] -> contains_ci needle ident -> ident <> [].
Proof.
  intros Hne (pre & mid & post & -> & Hmid) Hnil.
  apply app_eq_nil in Hnil as [_ Hnil]. apply app_eq_nil in Hnil as [-> _].
  destruct needle; [congruence | discriminate].
Qed.

Lemma next_id_none needle installed :
  lower needle = needle ->
  Forall (fun u => ~ contains_ci needle (get_id u)) installed ->
  next_id needle installed = Ok None.
Proof.
  intros Hlow. induction 1 as [|u installed Hu _ IH]; simpl; [reflexivity|].
  fold (get_id u). destruct (str_in needle (lower (get_id u))) eqn:E.
  - apply str_in_needle in E; [contradiction | assumption].
  - exact IH.
Qed.

Lemma next_id_first needle pre v post :
  lower needle = needle -> needle <> [] ->
  Forall (fun u => ~ contains_ci needle (get_id u)) pre ->
  contains_ci needle (get_id v) ->
  next_id needle (pre ++ v :: post) = Ok (Some (get_id v)).
Proof.
  intros Hlow Hne Hpre Hv. induction Hpre as [|u pre Hu _ IH]; simpl.
  - fold (get_id v).
    pose proof (proj2 (str_in_needle _ _ Hlow) Hv) as E. rewrite E.
    pose proof (contains_ci_nonempty _ _ Hne Hv) as Hid.
    unfold getitem, get_id in *.
    destruct (v !! pystr "id"); [reflexivity | simpl in Hid; congruence].
  - fold (get_id u). destruct (str_in needle (lower (get_id u))) eqn:E.
    + apply str_in_needle in E; [contradiction | assumption].
    + exact IH.
Qed.


(** * The handler logic *)

(** ** Rules for [sat] *)
Lemma run_sat (m : M unit) w (P : Run -> Prop) :
  sat w m (fun r w' ev => P (as_run r w' ev)) -> P (run m w).
Proof.
  unfold sat, run, as_run. destruct (m w) as [[r w'] ev].
  destruct r; auto.
Qed.

Lemma sat_bind {A B} (m : M A) (k : A -> M B) w mid post :
  sat w m mid ->
  (forall r w1 ev1, mid r w1 ev1 ->
     match r with
     | Next a => sat w1 (k a) (fun r' w2 ev2 => post r' w2 (ev1 ++ ev2))
     | Return o => post (Return o) w1 ev1
     | Raise e => post (Raise e) w1 ev1
     end) ->
  sat w (bind m k) post.
Proof.
  unfold sat, bind. destruct (m w) as [[r w1] ev1]. intros Hm Hk.
  specialize (Hk _ _ _ Hm). destruct r; try exact Hk.
  destruct (k a w1) as [[r' w2] ev2]. exact Hk.
Qed.

Lemma sat_bind_emit {B} e (k : unit -> M B) w post :
  sat w (k tt) (fun r w' ev => post r w' (e :: ev)) ->
  sat w (bind (emit e) k) post.
Proof.
  intros H. apply sat_bind with (mid := fun r w1 ev1 => r = Next tt /\ w1 = w /\ ev1 = [e]).
  - repeat split.
  - intros r w1 ev1 (-> & -> & ->). exact H.
Qed.

Lemma sat_bind_reads {A B} (f : MelonLauncher -> A) (k : A -> M B) w post :
  sat w (k (f (self w))) post -> sat w (bind (reads f) k) post.
Proof.
  intros H. apply sat_bind with (mid := fun r w1 ev1 => r = Next (f (self w)) /\ w1 = w /\ ev1 = []).
  - repeat split.
  - intros r w1 ev1 (-> & -> & ->). exact H.
Qed.

(** ** Rules for [quiet] *)
Section Quiet.
Context (E : Event -> Prop) (w : World).

Lemma quiet_ret {A} (a : A) (Q : A -> Prop) : Q a -> quiet E w (ret a) Q.
Proof. intros H. repeat split; [constructor | exact H]. Qed.

Lemma quiet_return {A} o (Q : A -> Prop) :
  late o -> quiet E w (return_ o) Q.
Proof. intros H. repeat split; [constructor | apply H | apply H]. Qed.

Lemma quiet_raise {A} e (Q : A -> Prop) : quiet E w (raise e) Q.
Proof. repeat split. constructor. Qed.

Lemma quiet_emit e (Q : unit -> Prop) :
  E e -> Q tt -> quiet E w (emit e) Q.
Proof. intros He HQ. repeat split; [repeat constructor; exact He | exact HQ]. Qed.

Lemma quiet_reads {A} (f : MelonLauncher -> A) (Q : A -> Prop) :
  Q (f (self w)) -> quiet E w (reads f) Q.
Proof. intros H. repeat split; [constructor | exact H]. Qed.

Lemma quiet_lift {A} (r : result A) (Q : A -> Prop) :
  (forall a, r = Ok a -> Q a) -> quiet E w (lift r) Q.
Proof.
  intros H. destruct r; [apply quiet_ret; auto | apply quiet_raise].
Qed.

Lemma quiet_bind {A B} (m : M A) (k : A -> M B) Q1 Q :
  quiet E w m Q1 ->
  (forall a, Q1 a -> quiet E w (k a) Q) ->
  quiet E w (bind m k) Q.
Proof.
  intros Hm Hk. eapply sat_bind; [exact Hm|].
  intros r w1 ev1 (-> & Hev & Hr). destruct r as [a|o|e].
  - specialize (Hk a Hr). unfold quiet, sat in *.
    destruct (k a w) as [[r' w2] ev2]. destruct Hk as (-> & Hev2 & Hr').
    repeat split; [apply Forall_app; auto | exact Hr'].
  - repeat split; [exact Hev | apply Hr | apply Hr].
  - repeat split. exact Hev.
Qed.

Lemma quiet_call {A} e (r : result A) (Q : A -> Prop) :
  E e -> (forall a, r = Ok a -> Q a) -> quiet E w (call e r) Q.
Proof.
  intros He HQ. apply quiet_bind with (Q1 := fun _ => True).
  - apply quiet_emit; auto.
  - intros _ _. apply quiet_lift. exact HQ.
Qed.

Lemma quiet_try {A} (body : M A) (h : Exc -> M A) Q :
  quiet E w body Q -> (forall e, quiet E w (h e) Q) ->
  quiet E w (try_ body h) Q.
Proof.
  unfold quiet, sat, try_. destruct (body w) as [[r w1] ev1].
  intros (-> & Hev & Hr) Hh. destruct r as [a|o|e].
  - split; [reflexivity | split; assumption].
  - split; [reflexivity | split; assumption].
  - specialize (Hh e). destruct (h e w) as [[r' w2] ev2].
    destruct Hh as (-> & Hev2 & Hr').
    split; [reflexivity | split; [apply Forall_app; auto | exact Hr']].
Qed.

Lemma quiet_when (b : bool) (m : M unit) (Q : unit -> Prop) :
  (b = true -> quiet E w m Q) -> (b = false -> Q tt) ->
  quiet E w (when b m) Q.
Proof.
  intros Hm HQ. destruct b; [apply Hm; reflexivity | apply quiet_ret; auto].
Qed.

Lemma quiet_weaken {A} (m : M A) (Q Q' : A -> Prop) :
  quiet E w m Q -> (forall a, Q a -> Q' a) -> quiet E w m Q'.
Proof.
  unfold quiet, sat. destruct (m w) as [[r w1] ev1].
  intros (-> & Hev & Hr) HQ. repeat split; [exact Hev|].
  destruct r; auto.
Qed.
End Quiet.

Ltac quiet_step :=
  lazymatch goal with
  | |- quiet _ _ (bind _ _) _ => apply quiet_bind with (Q1 := fun _ => True)
  | |- quiet _ _ (try_ _ _) _ => apply quiet_try
  | |- quiet _ _ (when _ _) _ => apply quiet_when
  | |- quiet _ _ (ret _) _ => apply quiet_ret
  | |- quiet _ _ (return_ _) _ => apply quiet_return; split; discriminate
  | |- quiet _ _ (raise _) _ => apply quiet_raise
  | |- quiet _ _ (emit _) _ => apply quiet_emit
  | |- quiet _ _ (logging _ _ _) _ => apply quiet_emit
  | |- quiet _ _ (messagebox _ _ _) _ => apply quiet_emit
  | |- quiet _ _ (reads _) _ => apply quiet_reads
  | |- quiet _ _ (lift _) _ => apply quiet_lift
  | |- quiet _ _ (call _ _) _ => apply quiet_call
  | |- quiet _ _ (if ?b then _ else _) _ => destruct b
  | |- quiet _ _ (match ?x with _ => _ end) _ => destruct x
  | |- forall _, _ => intro
  | |- _ => exact I
  end.

Ltac quiet_auto := repeat quiet_step.

(** ** The sections of [_launch] after "Persist config" *)
Section Launch.
Context (env : Env) (w0 : World).

Lemma import_launcher_lib_quiet w :
  quiet (command_ok w0) w (import_launcher_lib env) (fun _ => True).
Proof. unfold import_launcher_lib. quiet_auto. Qed.

Lemma latest_release_quiet lib w :
  quiet (command_ok w0) w (latest_release lib) (fun _ => True).
Proof. unfold latest_release. quiet_auto. Qed.

Lemma pick_version_quiet lib mc_dir game_type w :
  quiet (command_ok w0) w (pick_version lib mc_dir game_type) (fun _ => True).
Proof.
  unfold pick_version.
  apply quiet_bind with (Q1 := fun _ => True); [quiet_auto|]. intros installed _.
  apply quiet_bind with (Q1 := fun _ => True).
  { repeat match goal with
           | |- quiet _ _ (if ?b then _ else _) _ => destruct b
           end;
      try (apply quiet_bind with (Q1 := fun _ => True);
           [apply latest_release_quiet|]); quiet_auto. }
  intros version_id _.
  apply quiet_bind with (Q1 := fun _ => True); [|quiet_auto].
  destruct (falsy version_id);
    try (apply quiet_bind with (Q1 := fun _ => True);
         [apply latest_release_quiet|]); quiet_auto.
Qed.

Lemma ensure_installed_quiet lib version_id mc_dir w :
  quiet (command_ok w0) w (ensure_installed lib version_id mc_dir) (fun _ => True).
Proof. unfold ensure_installed. quiet_auto. Qed.

Lemma build_session_quiet login_type username w :
  quiet (command_ok w0) w (build_session login_type username)
    (fun session =>
       str_eqb login_type (pystr "offline") = true ->
       s_name session = username
       /\ offline_uuid username = Ok (s_id session)
       /\ s_token session = []).
Proof.
  unfold build_session.
  destruct (str_eqb login_type (pystr "offline")).
  - eapply quiet_bind with (Q1 := fun i => offline_uuid username = Ok i).
    + apply quiet_lift. auto.
    + intros i Hi. apply quiet_ret. intros _. auto.
  - quiet_auto. discriminate.
Qed.

Lemma start_game_quiet lib version_id mc_dir game_type options w :
  command_ok w0 (GetMinecraftCommand version_id mc_dir options) ->
  quiet (command_ok w0) w
    (start_game env lib version_id mc_dir game_type options)
    (fun _ => True).
Proof.
  intros HE. unfold start_game.
  apply quiet_try; [|quiet_auto].
  apply quiet_bind with (Q1 := fun _ => True);
    [apply quiet_call; [exact HE | auto] | quiet_auto].
Qed.
End Launch.

Lemma sat_of_quiet {A} E w (m : M A) Q
    (post : Ctl A -> World -> list Event -> Prop) :
  quiet E w m Q ->
  (forall r ev, Forall E ev ->
                match r with
                | Next a => Q a
                | Return o => late o
                | Raise _ => True
                end -> post r w ev) ->
  sat w m post.
Proof.
  unfold quiet, sat. destruct (m w) as [[r w'] ev].
  intros (-> & Hev & Hr) Hpost. auto.
Qed.

Lemma validate_spec login_type username w :
  sat w (validate login_type username)
    (fun r w' ev =>
       w' = w
       /\ Forall (fun e => match e with
                           | Logging _ _ _ | Messagebox _ _ _ => True
                           | _ => False
                           end) ev
       /\ match r with
          | Next _ =>
              str_eqb login_type (pystr "offline")
              && negb (_validate_username username) = false
              /\ str_eqb login_type (pystr "microsoft")
                 && negb (hasattr (ms_profile (self w))) = false
          | Return o =>
              (o = Failed InvalidUsername
               /\ str_eqb login_type (pystr "offline") = true
               /\ _validate_username username = false)
              \/ (o = Failed NotAuthenticated
                  /\ str_eqb login_type (pystr "microsoft") = true
                  /\ ms_profile (self w) = None)
          | Raise _ => False
          end).
Proof.
  unfold sat, validate, when, bind, reads, logging, messagebox, emit,
    return_, ret.
  destruct (str_eqb login_type (pystr "offline")),
    (_validate_username username); simpl;
    destruct (str_eqb login_type (pystr "microsoft")); simpl;
    destruct (ms_profile (self w)); simpl;
    (split; [reflexivity|]);
    (split; [repeat (apply List.Forall_cons; [exact I|]); apply List.Forall_nil|]);
    first [ split; reflexivity
          | left; repeat split; reflexivity
          | right; repeat split; reflexivity ].
Qed.

Lemma persist_config_spec env w :
  sat w (persist_config env (login_type_var (self w))
           (strip (username_var (self w))) (ram_var (self w)))
    (fun r w' ev =>
       r = Next tt /\ w' = persisted env w
       /\ Forall (fun e => match e with
                           | Logging _ _ _ | OpenForWrite => True
                           | _ => False
                           end) ev).
Proof.
  unfold sat, persist_config, _save_config, persisted, updated_config, offline.
  unfold when, bind, try_, call, lift, config_setitem, dump_config, logging,
    emit, ret, raise.
  destruct (str_eqb (login_type_var (self w)) (pystr "offline")),
    (open_config_for_write env); simpl;
    (split; [reflexivity | split; [reflexivity | repeat constructor]]).
Qed.

Lemma launch_spec env w : launch_post env w (run (_launch env) w).
Proof.
  apply run_sat. unfold _launch.
  apply sat_bind_emit. do 4 apply sat_bind_reads. apply sat_bind_emit.
  eapply sat_bind; [apply validate_spec|].
  intros r w1 ev1 (-> & Hev1 & Hr).
  assert (Hok1 : Forall (command_ok w) ev1).
  { eapply Forall_impl; [exact Hev1|]. intros [] H; simpl; tauto. }
  destruct r as [[]|o|e]; [| |contradiction].
  - destruct Hr as [Hv1 Hv2].
    assert (Hpass : passes_validation (self w) = true).
    { unfold passes_validation, offline, microsoft.
      rewrite Hv1, Hv2. reflexivity. }
    eapply sat_bind; [apply persist_config_spec|].
    intros r w2 ev2 (-> & -> & Hev2).
    assert (Hok2 : Forall (command_ok w) ev2).
    { eapply Forall_impl; [exact Hev2|]. intros [] H; simpl; tauto. }
    eapply sat_of_quiet with (E := command_ok w) (Q := fun _ => True).
    + apply quiet_bind with (Q1 := fun _ => True);
        [apply import_launcher_lib_quiet|]. intros lib _.
      apply quiet_bind with (Q1 := fun _ => True); [quiet_auto|].
      intros mc_dir _.
      apply quiet_bind with (Q1 := fun _ => True).
      { apply quiet_try; [apply pick_version_quiet | quiet_auto]. }
      intros picked _. cbv zeta.
      apply quiet_bind with (Q1 := fun _ => True);
        [apply ensure_installed_quiet|]. intros _ _.
      eapply quiet_bind; [apply build_session_quiet|]. intros session Hs.
      apply quiet_bind with (Q1 := fun _ => True); [quiet_auto|]. intros _ _.
      apply start_game_quiet. split; [reflexivity | exact Hs].
    + intros r ev Hev Hr. unfold launch_post, as_run. simpl.
      split.
      { repeat (apply List.Forall_cons; [exact I|]).
        repeat (apply Forall_app; split; try assumption). }
      destruct r as [[]|o|e]; try (split; [exact Hpass | reflexivity]).
      destruct Hr as [Hn1 Hn2].
      destruct o as [|[]| |]; try (split; [exact Hpass | reflexivity]);
        congruence.
  - unfold launch_post, as_run. simpl. split.
    { repeat (apply List.Forall_cons; [exact I|]).
      exact Hok1. }
    destruct Hr as [(-> & Ho & Hv) | (-> & Hm & Hp)]; repeat split; assumption.
Qed.

(** ** Rules for [respects] *)
Lemma respects_ret {A} (a : A) : respects (ret a).
Proof. intros w1 w2 H. repeat split; apply H. Qed.

Lemma respects_return {A} o : respects (@return_ A o).
Proof. intros w1 w2 H. repeat split; apply H. Qed.

Lemma respects_raise {A} e : respects (@raise A e).
Proof. intros w1 w2 H. repeat split; apply H. Qed.

Lemma respects_emit e : respects (emit e).
Proof. intros w1 w2 H. repeat split; apply H. Qed.

Lemma respects_lift {A} (r : result A) : respects (lift r).
Proof. destruct r; [apply respects_ret | apply respects_raise]. Qed.

Lemma respects_reads {A} (f : MelonLauncher -> A) :
  (forall w1 w2, same_but_username w1 w2 -> f (self w1) = f (self w2)) ->
  respects (reads f).
Proof.
  intros Hf w1 w2 H. unfold reads. simpl.
  split; [f_equal; apply Hf, H | split; [reflexivity | exact H]].
Qed.

Lemma respects_bind {A B} (m : M A) (k : A -> M B) :
  respects m -> (forall a, respects (k a)) -> respects (bind m k).
Proof.
  intros Hm Hk w1 w2 H. specialize (Hm w1 w2 H). unfold bind.
  destruct (m w1) as [[r1 u1] ev1], (m w2) as [[r2 u2] ev2].
  simpl in Hm. destruct Hm as (<- & <- & Hu).
  destruct r1 as [a|o|e]; simpl; auto.
  specialize (Hk a u1 u2 Hu).
  destruct (k a u1) as [[r1' u1'] ev1'], (k a u2) as [[r2' u2'] ev2'].
  simpl in *. destruct Hk as (-> & -> & Hu'). auto.
Qed.

Lemma respects_try {A} (body : M A) (h : Exc -> M A) :
  respects body -> (forall e, respects (h e)) -> respects (try_ body h).
Proof.
  intros Hm Hk w1 w2 H. specialize (Hm w1 w2 H). unfold try_.
  destruct (body w1) as [[r1 u1] ev1], (body w2) as [[r2 u2] ev2].
  simpl in Hm. destruct Hm as (<- & <- & Hu).
  destruct r1 as [a|o|e]; simpl; auto.
  specialize (Hk e u1 u2 Hu).
  destruct (h e u1) as [[r1' u1'] ev1'], (h e u2) as [[r2' u2'] ev2'].
  simpl in *. destruct Hk as (-> & -> & Hu'). auto.
Qed.

Lemma respects_call {A} e (r : result A) : respects (call e r).
Proof.
  apply respects_bind; [apply respects_emit | intros; apply respects_lift].
Qed.

Lemma respects_when b (m : M unit) : respects m -> respects (when b m).
Proof. intros H. destruct b; [exact H | apply respects_ret]. Qed.

Lemma respects_config_setitem k v : respects (config_setitem k v).
Proof.
  intros w1 w2 (H1 & H2 & H3 & H4 & H5 & H6 & H7 & H8).
  unfold config_setitem, same_but_username. simpl.
  rewrite H5. repeat split; assumption.
Qed.

Lemma respects_dump_config : respects dump_config.
Proof.
  intros w1 w2 (H1 & H2 & H3 & H4 & H5 & H6 & H7 & H8).
  unfold dump_config, same_but_username. simpl.
  rewrite H5. repeat split; assumption.
Qed.

Ltac respects_step :=
  lazymatch goal with
  | |- respects (bind _ _) => apply respects_bind
  | |- respects (try_ _ _) => apply respects_try
  | |- respects (when _ _) => apply respects_when
  | |- respects (ret _) => apply respects_ret
  | |- respects (return_ _) => apply respects_return
  | |- respects (raise _) => apply respects_raise
  | |- respects (emit _) => apply respects_emit
  | |- respects (logging _ _ _) => apply respects_emit
  | |- respects (messagebox _ _ _) => apply respects_emit
  | |- respects (lift _) => apply respects_lift
  | |- respects (call _ _) => apply respects_call
  | |- respects (config_setitem _ _) => apply respects_config_setitem
  | |- respects dump_config => apply respects_dump_config
  | |- respects (reads _) =>
      apply respects_reads; intros ? ? (? & ? & ? & ? & ? & ? & ? & ?);
      simpl; congruence
  | |- respects (if ?b then _ else _) => destruct b
  | |- respects (match ?x with _ => _ end) => destruct x
  | |- forall _, _ => intro
  end.

Lemma launch_respects env : respects (_launch env).
Proof.
  unfold _launch, validate, persist_config, _save_config,
    import_launcher_lib, pick_version, latest_release, ensure_installed,
    build_session, start_game.
  repeat respects_step.
Qed.


(** * Paths through the handlers *)

Ltac unfold_handlers :=
  cbv beta iota zeta delta
    [_launch validate persist_config import_launcher_lib ensure_installed
     start_game _save_config dump_config pick_version latest_release
     build_session build_options bind ret return_ raise emit reads lift call
     try_ when logging messagebox config_setitem run
     outcome final events self config_file fst snd app hasattr negb andb
     from_option id falsy truthy s_name s_id s_token].

Ltac eval_str_eqb :=
  repeat match goal with
         | |- context [str_eqb (pystr ?a) (pystr ?b)] =>
             let v := eval vm_compute in (str_eqb (pystr a) (pystr b)) in
             change (str_eqb (pystr a) (pystr b)) with v
         end.

Lemma command_event env w v d o :
  GetMinecraftCommand v d o ∈ events (run (_launch env) w) ->
  command_ok w (GetMinecraftCommand v d o).
Proof.
  intros Hin. destruct (launch_spec env w) as [H _].
  rewrite Forall_forall in H. exact (H _ Hin).
Qed.

Lemma passes_validation_final env w :
  passes_validation (self w) = true ->
  late (outcome (run (_launch env) w))
  /\ final (run (_launch env) w) = persisted env w.
Proof.
  intros Hpass. destruct (launch_spec env w) as [_ H].
  unfold passes_validation in Hpass.
  apply andb_true_iff in Hpass as [H1 H2].
  apply negb_true_iff in H1, H2. unfold late.
  destruct (outcome (run (_launch env) w)) as [|[]| |];
    try (destruct H as [_ ->]; repeat split; discriminate).
  - destruct H as (Ho & Hv & _). rewrite Ho, Hv in H1. discriminate.
  - destruct H as (Hm & Hp & _). rewrite Hm, Hp in H2. discriminate.
Qed.

Lemma offline_not_microsoft s : offline s = true -> microsoft s = false.
Proof.
  unfold offline, microsoft, str_eqb. intros H.
  apply bool_decide_eq_true_1 in H. rewrite H. reflexivity.
Qed.

Lemma offline_valid_passes s :
  offline s = true ->
  _validate_username (strip (username_var s)) = true ->
  passes_validation s = true.
Proof.
  intros Ho Hv. unfold passes_validation.
  rewrite Ho, Hv, (offline_not_microsoft s Ho). reflexivity.
Qed.

Lemma run_respects (m : M unit) w1 w2 :
  respects m -> same_but_username w1 w2 ->
  outcome (run m w1) = outcome (run m w2)
  /\ events (run m w1) = events (run m w2)
  /\ same_but_username (final (run m w1)) (final (run m w2)).
Proof.
  intros Hm Hw. specialize (Hm w1 w2 Hw). unfold run.
  destruct (m w1) as [[r1 u1] ev1], (m w2) as [[r2 u2] ev2].
  simpl in Hm. destruct Hm as (<- & <- & Hu).
  destruct r1; simpl; auto.
Qed.

Lemma offline_uuid_steve : offline_uuid (pystr "Steve") = Ok steve_uuid.
Proof. vm_compute. reflexivity. Qed.

Lemma getitem_lookup (d : gmap (list N) (list N)) k v :
  d !! k = Some v -> getitem d k = Ok v.
Proof. intros H. unfold getitem. rewrite H. reflexivity. Qed.

Lemma loaders_cases edition loader :
  (edition, loader) ∈ loaders ->
  (edition = pystr "Forge" /\ loader = pystr "forge")
  \/ (edition = pystr "Fabric" /\ loader = pystr "fabric").
Proof.
  unfold loaders. rewrite !elem_of_cons, elem_of_nil.
  intros [H | [H | []]]; [left | right]; injection H as -> ->;
    split; reflexivity.
Qed.

Lemma strip_valid core : _validate_username core = true -> strip core = core.
Proof.
  intros H. apply validate_username_iff in H as [Hlen Hchars].
  rewrite <- (app_nil_r core) at 1.
  apply (strip_padded [] core []); try constructor.
  - intros ->. simpl in Hlen. lia.
  - eapply Forall_impl; [exact Hchars|].
    intros c Hc. apply word_class_not_space, word_class_spec, Hc.
Qed.

Lemma padded_is_invalid l core r :
  Forall (fun c => isspace c = true) l ->
  Forall (fun c => isspace c = true) r ->
  l ++ r <> [] ->
  _validate_username (l ++ core ++ r) = false.
Proof.
  intros Hl Hr Hne. apply not_true_is_false. intros H.
  apply validate_username_iff in H as [_ Hchars].
  apply Forall_app in Hchars as [Hcl Hchars].
  apply Forall_app in Hchars as [_ Hcr].
  assert (Hboth : Forall (fun c => isspace c = true /\ username_char c) (l ++ r)).
  { apply Forall_app. split; apply Forall_and; split; assumption. }
  destruct (l ++ r) as [|c rest]; [congruence|].
  inversion Hboth as [|? ? [Hs Hc] _]; subst.
  apply word_class_spec, word_class_not_space in Hc. congruence.
Qed.

Lemma updated_config_lookup (s : MelonLauncher) :
  updated_config s !! pystr "login_type" = Some (VStr (login_type_var s))
  /\ updated_config s !! pystr "ram" = Some (VInt (ram_var s))
  /\ updated_config s !! pystr "offline_username"
     = (if offline s then Some (VStr (strip (username_var s)))
        else config s !! pystr "offline_username")
  /\ forall k, k ∉ preference_keys -> updated_config s !! k = config s !! k.
Proof.
  unfold updated_config. split; [|split; [|split]].
  - rewrite lookup_insert_ne by discriminate. apply lookup_insert_eq.
  - apply lookup_insert_eq.
  - rewrite !lookup_insert_ne by discriminate.
    destruct (offline s); [apply lookup_insert_eq | reflexivity].
  - intros k Hk. unfold preference_keys in Hk.
    rewrite !not_elem_of_cons in Hk. destruct Hk as (H1 & H2 & H3 & _).
    rewrite !lookup_insert_ne by congruence.
    destruct (offline s); [apply lookup_insert_ne; congruence | reflexivity].
Qed.


(** ** Following one path *)
Lemma sat_bind_next {A B} (m : M A) (k : A -> M B) w a post :
  (m w).1.1 = Next a ->
  sat (m w).1.2 (k a) (fun r w' ev => post r w' ((m w).2 ++ ev)) ->
  sat w (bind m k) post.
Proof.
  unfold sat, bind. destruct (m w) as [[r w1] ev1]. simpl. intros -> H.
  destruct (k a w1) as [[r' w2] ev2]. exact H.
Qed.

Lemma sat_bind_eq {A B} (m : M A) (k : A -> M B) w a w1 ev1 post :
  m w = (Next a, w1, ev1) ->
  sat w1 (k a) (fun r w' ev => post r w' (ev1 ++ ev)) ->
  sat w (bind m k) post.
Proof.
  intros Hm H. apply (sat_bind_next m k w a); rewrite Hm; [reflexivity|].
  exact H.
Qed.

Lemma try_next {A} (body : M A) (h : Exc -> M A) w a :
  (body w).1.1 = Next a -> try_ body h w = body w.
Proof.
  unfold try_. destruct (body w) as [[r w1] ev1]. simpl. intros ->.
  reflexivity.
Qed.

Lemma quiet_world {A} E w (m : M A) Q : quiet E w m Q -> (m w).1.2 = w.
Proof.
  unfold quiet, sat. destruct (m w) as [[r w'] ev]. intros (-> & _).
  reflexivity.
Qed.

Ltac find_event :=
  solve [ repeat first [ apply list_elem_of_here
                       | assumption
                       | apply list_elem_of_further
                       | apply elem_of_app; right ] ].

(** ** Version resolution *)
Section PickVersion.
Context (lib : Lib) (mc_dir : list N) (w : World).
Context (installed : list (gmap (list N) (list N))).
Context (Hinst : get_installed_versions lib mc_dir = Ok installed).

Lemma pick_vanilla lv rel :
  get_latest_version lib = Ok lv ->
  lv !! pystr "release" = Some rel ->
  (pick_version lib mc_dir (pystr "Vanilla") w).1.1
  = Next (rel, pystr "Vanilla").
Proof.
  intros Hlatest Hrel. pose proof (getitem_lookup _ _ _ Hrel) as Hget.
  unfold_handlers. rewrite Hinst. eval_str_eqb.
  unfold_handlers. rewrite Hlatest. unfold_handlers. rewrite Hget.
  unfold_handlers.
  destruct rel; unfold_handlers; rewrite ?Hlatest; unfold_handlers;
    rewrite ?Hget; reflexivity.
Qed.

Lemma pick_first_match edition loader pre v post :
  (edition, loader) ∈ loaders ->
  installed = pre ++ v :: post ->
  Forall (fun u => ~ contains_ci loader (get_id u)) pre ->
  contains_ci loader (get_id v) ->
  (pick_version lib mc_dir edition w).1.1 = Next (get_id v, edition).
Proof.
  intros Hin Hsplit Hpre Hv. apply loaders_cases in Hin as Hcases.
  assert (Hlow : lower loader = loader)
    by (destruct Hcases as [[_ ->] | [_ ->]]; reflexivity).
  assert (Hne : loader <> [])
    by (destruct Hcases as [[_ ->] | [_ ->]]; discriminate).
  pose proof (next_id_first _ _ _ post Hlow Hne Hpre Hv) as Hnext.
  rewrite <- Hsplit in Hnext.
  pose proof (contains_ci_nonempty _ _ Hne Hv) as Hid.
  destruct Hcases as [[-> ->] | [-> ->]]; unfold_handlers; rewrite Hinst;
    eval_str_eqb; unfold_handlers; rewrite Hnext; unfold_handlers;
    destruct (get_id v); (congruence || reflexivity).
Qed.

Lemma pick_fallback edition loader lv rel :
  (edition, loader) ∈ loaders ->
  get_latest_version lib = Ok lv ->
  lv !! pystr "release" = Some rel ->
  Forall (fun u => ~ contains_ci loader (get_id u)) installed ->
  (pick_version lib mc_dir edition w).1.1 = Next (rel, pystr "Vanilla")
  /\ using_version rel (pystr "Vanilla")
       ∈ (pick_version lib mc_dir edition w).2.
Proof.
  intros Hin Hlatest Hrel Hall. apply loaders_cases in Hin as Hcases.
  pose proof (getitem_lookup _ _ _ Hrel) as Hget.
  assert (Hlow : lower loader = loader)
    by (destruct Hcases as [[_ ->] | [_ ->]]; reflexivity).
  pose proof (next_id_none _ _ Hlow Hall) as Hnext.
  destruct Hcases as [[-> ->] | [-> ->]]; unfold_handlers; rewrite Hinst;
    eval_str_eqb; unfold_handlers; rewrite Hnext; unfold_handlers;
    rewrite Hlatest; unfold_handlers; rewrite Hget;
    unfold_handlers; (split; [reflexivity|]); unfold using_version;
    find_event.
Qed.
End PickVersion.

(** ** The attempt for "Steve" *)
Lemma build_session_steve w :
  build_session (pystr "offline") (pystr "Steve") w
  = (Next {| s_name := pystr "Steve"; s_id := steve_uuid; s_token := [] |},
     w, []).
Proof.
  unfold build_session. eval_str_eqb. unfold bind, lift.
  rewrite offline_uuid_steve. reflexivity.
Qed.

Lemma start_game_asks env lib version_id mc_dir game_type options w :
  GetMinecraftCommand version_id mc_dir options
    ∈ (start_game env lib version_id mc_dir game_type options w).2.
Proof.
  unfold_handlers.
  destruct (get_minecraft_command lib version_id mc_dir options)
    as [cmd|e]; unfold_handlers; [|find_event].
  destruct (subprocess_Popen env cmd); unfold_handlers; find_event.
Qed.

Lemma steve_launch_events env lib w mc_dir installed lv rel :
  login_type_var (self w) = pystr "offline" ->
  username_var (self w) = pystr "Steve" ->
  version_var (self w) = pystr "Vanilla" ->
  ram_var (self w) = 4 ->
  minecraft_launcher_lib env = Some lib ->
  get_minecraft_directory lib = Ok mc_dir ->
  get_installed_versions lib mc_dir = Ok installed ->
  get_latest_version lib = Ok lv ->
  lv !! pystr "release" = Some rel ->
  install_minecraft_version lib rel mc_dir = Ok tt ->
  let session := {| s_name := pystr "Steve"; s_id := steve_uuid;
                    s_token := [] |} in
  Logging INFO "Session for launch: %s" [ASession session]
    ∈ events (run (_launch env) w)
  /\ GetMinecraftCommand rel mc_dir (build_options session 4)
       ∈ events (run (_launch env) w).
Proof.
  intros Hlt Hu Hv Hram Hlib Hdir Hinst Hlatest Hrel Hins. cbv zeta.
  apply run_sat. unfold _launch.
  apply sat_bind_emit. do 4 apply sat_bind_reads. apply sat_bind_emit.
  eapply sat_bind; [apply validate_spec|].
  intros r w1 ev1 (-> & _ & Hr).
  assert (Hstrip : strip (username_var (self w)) = pystr "Steve")
    by (rewrite Hu; reflexivity).
  destruct r as [[]|o|e]; [| |contradiction].
  2:{ exfalso. rewrite Hlt, Hstrip in Hr.
      destruct Hr as [(_ & _ & H) | (_ & H & _)]; vm_compute in H;
        discriminate. }
  eapply sat_bind; [apply persist_config_spec|].
  intros r w2 ev2 (-> & -> & _).
  rewrite Hlt, Hstrip, Hv, Hram.
  eapply sat_bind_eq.
  { unfold import_launcher_lib. rewrite Hlib. reflexivity. }
  eapply sat_bind_eq; [unfold call; rewrite Hdir; reflexivity|].
  pose proof (pick_vanilla lib mc_dir (persisted env w) installed Hinst
                lv rel Hlatest Hrel) as Hpick.
  eapply sat_bind_next; [rewrite (try_next _ _ _ _ Hpick); exact Hpick|].
  rewrite (try_next _ _ _ _ Hpick).
  rewrite (quiet_world _ _ _ _ (pick_version_quiet w lib mc_dir _ _)).
  cbv zeta.
  eapply sat_bind_eq.
  { unfold ensure_installed, try_, call. simpl. rewrite Hins. reflexivity. }
  eapply sat_bind_eq; [apply build_session_steve|].
  apply sat_bind_emit.
  pose proof (start_game_asks env lib rel mc_dir (pystr "Vanilla")
                (build_options {| s_name := pystr "Steve";
                                  s_id := steve_uuid; s_token := [] |} 4))
    as Hasks.
  unfold sat.
  match goal with
  | |- match start_game _ _ _ _ _ _ ?w' with _ => _ end =>
      specialize (Hasks w'); destruct (start_game _ _ _ _ _ _ w') as [[r w3] ev3]
  end.
  simpl in Hasks. unfold as_run. simpl. split; find_event.
Qed.

(** * Stepping through a launch attempt *)

Lemma sat_bind_return {A B} (m : M A) (k : A -> M B) w o w1 ev1
    (post : Ctl B -> World -> list Event -> Prop) :
  m w = (Return o, w1, ev1) -> post (Return o) w1 ev1 -> sat w (bind m k) post.
Proof. unfold sat, bind. intros ->. auto. Qed.


Lemma sat_eq {A} (m : M A) w r w1 ev1
    (post : Ctl A -> World -> list Event -> Prop) :
  m w = (r, w1, ev1) -> post r w1 ev1 -> sat w m post.
Proof. unfold sat. intros ->. auto. Qed.

Lemma triple_eta {A B C} (p : A * B * C) : p = (p.1.1, p.1.2, p.2).
Proof. destruct p as [[a b] c]. reflexivity. Qed.

Lemma validate_passes w :
  passes_validation (self w) = true ->
  validate (login_type_var (self w)) (strip (username_var (self w))) w
  = (Next tt, w, []).
Proof.
  unfold passes_validation, offline, microsoft. intros H.
  apply andb_true_iff in H as [H1 H2]. apply negb_true_iff in H1, H2.
  unfold validate, when, bind, reads, ret. rewrite H1. cbv beta iota.
  rewrite H2. reflexivity.
Qed.

Lemma persist_config_eq env w :
  persist_config env (login_type_var (self w))
    (strip (username_var (self w))) (ram_var (self w)) w
  = (Next tt, persisted env w, save_events env).
Proof.
  unfold persist_config, _save_config, persisted, updated_config, offline,
    save_events.
  unfold when, bind, try_, call, lift, config_setitem, dump_config, logging,
    emit, ret, raise.
  destruct (str_eqb (login_type_var (self w)) (pystr "offline")),
    (open_config_for_write env) as [[]|]; reflexivity.
Qed.

Lemma latest_release_resolution lib w :
  quiet resolution_event w (latest_release lib) (fun _ => True).
Proof. unfold latest_release. quiet_auto. Qed.

Lemma pick_version_resolution lib mc_dir game_type w :
  quiet resolution_event w (pick_version lib mc_dir game_type)
    (fun _ => True).
Proof.
  unfold pick_version.
  apply quiet_bind with (Q1 := fun _ => True); [quiet_auto|]. intros installed _.
  apply quiet_bind with (Q1 := fun _ => True).
  { repeat match goal with
           | |- quiet _ _ (if ?b then _ else _) _ => destruct b
           end;
      try (apply quiet_bind with (Q1 := fun _ => True);
           [apply latest_release_resolution|]); quiet_auto. }
  intros version_id _.
  apply quiet_bind with (Q1 := fun _ => True); [|quiet_auto].
  destruct (falsy version_id);
    try (apply quiet_bind with (Q1 := fun _ => True);
         [apply latest_release_resolution|]); quiet_auto.
Qed.

Lemma quiet_weaken_events {A} (E E' : Event -> Prop) w (m : M A) Q :
  quiet E w m Q -> (forall e, E e -> E' e) -> quiet E' w m Q.
Proof.
  unfold quiet, sat. destruct (m w) as [[r w1] ev1].
  intros (-> & Hev & Hr) HE. repeat split; [|exact Hr].
  eapply Forall_impl; [exact Hev | exact HE].
Qed.

Lemma pick_version_facts lib mc_dir game_type w :
  (pick_version lib mc_dir game_type w).1.2 = w
  /\ Forall resolution_event (pick_version lib mc_dir game_type w).2.
Proof.
  pose proof (pick_version_resolution lib mc_dir game_type w) as H.
  unfold quiet, sat in H.
  destruct (pick_version lib mc_dir game_type w) as [[r w'] ev].
  destruct H as (-> & Hev & _). split; [reflexivity | exact Hev].
Qed.

Lemma build_session_pure login_type username w :
  (build_session login_type username w).1.2 = w
  /\ (build_session login_type username w).2 = [].
Proof.
  unfold build_session, bind, lift, reads, ret, raise, getattr.
  destruct (str_eqb login_type (pystr "offline")).
  - destruct (offline_uuid username); split; reflexivity.
  - simpl. destruct (ms_profile (self w)) as [p|]; simpl;
      [|split; reflexivity].
    destruct (getitem p (pystr "name")); simpl; [|split; reflexivity].
    destruct (getitem p (pystr "id")); simpl; [|split; reflexivity].
    destruct (ms_token (self w)); split; reflexivity.
Qed.

Ltac enter_launch Hpass :=
  apply run_sat; unfold _launch;
  apply sat_bind_emit; do 4 apply sat_bind_reads; apply sat_bind_emit;
  eapply sat_bind_eq; [apply (validate_passes _ Hpass)|];
  eapply sat_bind_eq; [apply persist_config_eq|].

Ltac enter_library Hpass Hlib :=
  enter_launch Hpass;
  eapply sat_bind_eq;
    [unfold import_launcher_lib; rewrite Hlib; reflexivity|].

Ltac enter_directory Hpass Hlib Hdir :=
  enter_library Hpass Hlib;
  eapply sat_bind_eq; [unfold call; rewrite Hdir; reflexivity|].

Ltac enter_resolved Hpass Hlib Hdir Hpick :=
  enter_directory Hpass Hlib Hdir;
  eapply sat_bind_next; [rewrite (try_next _ _ _ _ Hpick); exact Hpick|];
  rewrite (try_next _ _ _ _ Hpick);
  rewrite (proj1 (pick_version_facts _ _ _ _)); cbv zeta; cbn [fst snd].

Ltac enter_start Hpass Hlib Hdir Hpick Hins Hsession :=
  enter_resolved Hpass Hlib Hdir Hpick;
  eapply sat_bind_eq;
    [unfold ensure_installed, try_, call, bind, emit, lift;
     rewrite Hins; reflexivity|];
  eapply sat_bind_next; [exact Hsession|];
  rewrite (proj1 (build_session_pure _ _ _)),
    (proj2 (build_session_pure _ _ _));
  apply sat_bind_emit.

Ltac finish_run :=
  unfold as_run, launch_head; cbn [app];
  rewrite <- ?app_assoc; cbn [app]; reflexivity.

Lemma microsoft_login_type s :
  microsoft s = true -> login_type_var s = pystr "microsoft".
Proof. unfold microsoft, str_eqb. apply bool_decide_eq_true_1. Qed.

Lemma offline_login_type s :
  offline s = true -> login_type_var s = pystr "offline".
Proof. unfold offline, str_eqb. apply bool_decide_eq_true_1. Qed.

(** ** Consequences for whole attempts *)

Lemma launch_events_prefix env w :
  passes_validation (self w) = true ->
  exists rest,
    events (run (_launch env) w) = launch_head w ++ save_events env ++ rest.
Proof.
  intros Hpass. pattern (run (_launch env) w). enter_launch Hpass.
  match goal with
  | |- sat ?w1 ?m _ => unfold sat; destruct (m w1) as [[r w'] ev]
  end.
  exists ev. unfold as_run, launch_head. cbn [events app]. reflexivity.
Qed.

Lemma valid_offline_uuid username :
  _validate_username username = true ->
  exists ident, offline_uuid username = Ok ident.
Proof.
  intros Hvalid. apply validate_username_iff in Hvalid as [_ Hchars].
  pose proof (encode_offline_player _ Hchars) as Henc.
  destruct (offline_digest_spec _ _ Henc) as (b6 & b8 & _ & _ & Hd).
  set (msg := Z.of_N <$> _) in *.
  destruct (patched_digest_shape (MD5.digest msg) b6 b8 (digest_length msg)
              (digest_range msg)) as [Hlen Hrange].
  eexists. exact (offline_uuid_render _ _ Hd Hlen Hrange).
Qed.

Lemma offline_session env w ident :
  offline (self w) = true ->
  offline_uuid (strip (username_var (self w))) = Ok ident ->
  (build_session (login_type_var (self w)) (strip (username_var (self w)))
     (persisted env w)).1.1
  = Next {| s_name := strip (username_var (self w)); s_id := ident;
            s_token := [] |}.
Proof.
  intros Hoff Hid. rewrite (offline_login_type _ Hoff).
  unfold build_session. eval_str_eqb. unfold bind, lift. rewrite Hid.
  reflexivity.
Qed.

Lemma launch_done env w lib mc_dir version_id game_type session cmd :
  passes_validation (self w) = true ->
  minecraft_launcher_lib env = Some lib ->
  get_minecraft_directory lib = Ok mc_dir ->
  (pick_version lib mc_dir (version_var (self w)) (persisted env w)).1.1
  = Next (version_id, game_type) ->
  install_minecraft_version lib version_id mc_dir = Ok tt ->
  (build_session (login_type_var (self w)) (strip (username_var (self w)))
     (persisted env w)).1.1 = Next session ->
  get_minecraft_command lib version_id mc_dir
    (build_options session (ram_var (self w))) = Ok cmd ->
  subprocess_Popen env cmd = Ok tt ->
  outcome (run (_launch env) w) = Done
  /\ GetMinecraftCommand version_id mc_dir
       (build_options session (ram_var (self w)))
       ∈ events (run (_launch env) w)
  /\ Popen cmd ∈ events (run (_launch env) w).
Proof.
  intros Hpass Hlib Hdir Hpick Hins Hsession Hcmd Hpopen.
  pattern (run (_launch env) w).
  enter_start Hpass Hlib Hdir Hpick Hins Hsession.
  eapply sat_eq.
  { unfold start_game, try_, call, bind, emit, lift, logging, messagebox,
      return_, ret, raise.
    rewrite Hcmd. cbv beta iota. rewrite Hpopen. reflexivity. }
  unfold as_run. cbn [outcome events].
  split; [reflexivity|]. split; find_event.
Qed.

(** * The specification, statement by statement *)

(** C5.  The validator accepts a string exactly when it has 3 to 16
    characters, each an ASCII letter, a digit or the underscore.  So the
    empty string, a string of more than 16 characters, and a string with a
    space or any other character are rejected.  The validator is a function
    from strings to booleans: it reads and writes no state. *)
Theorem validate_username_spec :
  (forall name, _validate_username name = true <-> valid_username name)
  /\ _validate_username [] = false
  /\ (forall name, (16 < length name)%nat -> _validate_username name = false)
  /\ (forall name c, c ∈ name -> ~ username_char c ->
                     _validate_username name = false).
Proof.
  split; [exact validate_username_iff|]. split; [reflexivity|]. split.
  - intros name Hlen. apply not_true_is_false. intros H.
    apply validate_username_iff in H as [Hl _]. lia.
  - intros name c Hin Hc. apply not_true_is_false. intros H.
    apply validate_username_iff in H as [_ Hall].
    rewrite Forall_forall in Hall. exact (Hc (Hall _ Hin)).
Qed.

Lemma validate_username_spec_witness :
  valid_username (pystr "Steve")
  /\ _validate_username (pystr "abcdefghijklmnopq") = false
  /\ _validate_username (pystr "a b") = false.
Proof.
  destruct validate_username_spec as (Hiff & _ & Hlong & Hchar).
  split; [apply Hiff; reflexivity|]. split.
  - apply Hlong. simpl. lia.
  - apply (Hchar _ 32%N).
    + apply list_elem_of_further, list_elem_of_here.
    + unfold username_char, ascii_letter, ascii_digit. lia.
Defined.

(** C10.  For a memory request of at least 1 GB the minimum heap in the JVM
    arguments is [max(1, ram_gb // 2)], at least 1 and at most the maximum
    heap [ram_gb]. *)
Theorem heap_bounds (ram_gb : Z) :
  1 <= ram_gb ->
  jvm_arguments ram_gb
  = [pystr "-Xmx" ++ str_of_int ram_gb ++ pystr "G";
     pystr "-Xms" ++ str_of_int (min_heap ram_gb) ++ pystr "G"]
  /\ min_heap ram_gb = Z.max 1 (ram_gb / 2)
  /\ 1 <= min_heap ram_gb <= ram_gb.
Proof.
  intros H. split; [reflexivity|]. split; [reflexivity|].
  unfold min_heap. split; [lia|].
  apply Z.max_lub; [lia|]. apply Z.div_le_upper_bound; lia.
Qed.

Lemma heap_bounds_witness :
  1 <= 4
  /\ jvm_arguments 4 = [pystr "-Xmx4G"; pystr "-Xms2G"]
  /\ 1 <= min_heap 4 <= 4.
Proof.
  split; [lia|].
  destruct (heap_bounds 4 ltac:(lia)) as (H1 & _ & H3).
  split; [exact H1 | exact H3].
Defined.

(** C1.  For a username the validator accepts, the offline identifier is:
    the MD5 digest (16 bytes) of the UTF-8 bytes of "OfflinePlayer:" followed
    by the username; byte 6 with its high nibble set to 3 and its low nibble
    kept; byte 8 with its top two bits set to 10 and its other six bits kept;
    the sixteen bytes written as a hyphenated lower-case hexadecimal UUID.
    Every command an offline launch builds carries that identifier. *)
Theorem offline_identifier_derivation (username : list N) :
  _validate_username username = true ->
  exists msg b6 b8,
    encode (pystr "OfflinePlayer:" ++ username) = Some msg
    /\ length (MD5.digest msg) = 16%nat
    /\ MD5.digest msg !! 6%nat = Some b6
    /\ MD5.digest msg !! 8%nat = Some b8
    /\ let bytes := <[8%nat := set_variant10 b8]>
                      (<[6%nat := set_version3 b6]> (MD5.digest msg)) in
       offline_digest username = Ok bytes
       /\ offline_uuid username = Ok (uuid_render bytes)
       /\ forall env w v d o,
            offline (self w) = true ->
            strip (username_var (self w)) = username ->
            GetMinecraftCommand v d o ∈ events (run (_launch env) w) ->
            o_uuid o = uuid_render bytes.
Proof.
  intros Hvalid. apply validate_username_iff in Hvalid as [_ Hchars].
  pose proof (encode_offline_player username Hchars) as Henc.
  destruct (offline_digest_spec _ _ Henc) as (b6 & b8 & H6 & H8 & Hd).
  set (msg := Z.of_N <$> (pystr "OfflinePlayer:" ++ username)) in *.
  pose proof (digest_length msg) as Hlen.
  destruct (patched_digest_shape (MD5.digest msg) b6 b8 Hlen (digest_range msg))
    as [Hlen' Hrange'].
  pose proof (offline_uuid_render _ _ Hd Hlen' Hrange') as Hu.
  exists msg, b6, b8. split; [exact Henc|].
  split; [exact Hlen|]. split; [exact H6|]. split; [exact H8|].
  cbv zeta. split; [exact Hd|]. split; [exact Hu|].
  intros env w v d o Hoff Hstrip Hin.
  apply command_event in Hin as [_ Hsession].
  destruct (Hsession Hoff) as (_ & Hid & _).
  rewrite Hstrip in Hid. apply Ok_inj.
  exact (eq_trans (eq_sym Hid) Hu).
Qed.

Lemma offline_identifier_derivation_witness :
  _validate_username (pystr "Steve") = true
  /\ exists msg b6 b8,
       encode (pystr "OfflinePlayer:Steve") = Some msg
       /\ MD5.digest msg !! 6%nat = Some b6
       /\ MD5.digest msg !! 8%nat = Some b8
       /\ offline_uuid (pystr "Steve")
          = Ok (uuid_render (<[8%nat := set_variant10 b8]>
                               (<[6%nat := set_version3 b6]>
                                  (MD5.digest msg)))).
Proof.
  split; [reflexivity|].
  destruct (offline_identifier_derivation (pystr "Steve") eq_refl)
    as (msg & b6 & b8 & H1 & _ & H6 & H8 & _ & Hu & _).
  exists msg, b6, b8. repeat split; assumption.
Defined.

(** C2.  With the library answering, resolving the Vanilla edition gives the
    latest release whatever is installed.  Resolving Forge or Fabric gives the
    identifier of the first installed version whose identifier contains the
    loader's name, letter case ignored.  When no installed version matches,
    the result is the latest release with the edition set to Vanilla, and the
    log line of the chosen version says Vanilla. *)
Theorem version_resolution lib mc_dir installed lv rel w :
  get_installed_versions lib mc_dir = Ok installed ->
  get_latest_version lib = Ok lv ->
  lv !! pystr "release" = Some rel ->
  (pick_version lib mc_dir (pystr "Vanilla") w).1.1
    = Next (rel, pystr "Vanilla")
  /\ forall edition loader, (edition, loader) ∈ loaders ->
       (forall pre v post,
          installed = pre ++ v :: post ->
          Forall (fun u => ~ contains_ci loader (get_id u)) pre ->
          contains_ci loader (get_id v) ->
          (pick_version lib mc_dir edition w).1.1 = Next (get_id v, edition))
       /\ (Forall (fun u => ~ contains_ci loader (get_id u)) installed ->
           (pick_version lib mc_dir edition w).1.1
             = Next (rel, pystr "Vanilla")
           /\ using_version rel (pystr "Vanilla")
                ∈ (pick_version lib mc_dir edition w).2).
Proof.
  intros Hinst Hlatest Hrel. split.
  - exact (pick_vanilla lib mc_dir w installed Hinst lv rel Hlatest Hrel).
  - intros edition loader Hin. split.
    + intros pre v post Hsplit Hpre Hv.
      exact (pick_first_match lib mc_dir w installed Hinst edition loader
               pre v post Hin Hsplit Hpre Hv).
    + intros Hall.
      exact (pick_fallback lib mc_dir w installed Hinst edition loader lv rel
               Hin Hlatest Hrel Hall).
Qed.

Lemma version_resolution_witness :
  let w := fresh_launcher "offline" "Steve" "Forge" 4 in
  let resolve edition :=
    (pick_version sample_lib (pystr ".minecraft") (pystr edition) w).1.1 in
  resolve "Vanilla" = Next (pystr "1.21", pystr "Vanilla")
  /\ resolve "Forge" = Next (pystr "1.20.1-Forge-47.2.0", pystr "Forge")
  /\ resolve "Fabric" = Next (pystr "1.21", pystr "Vanilla").
Proof.
  cbv zeta.
  destruct (version_resolution sample_lib (pystr ".minecraft")
              sample_installed sample_latest (pystr "1.21")
              (fresh_launcher "offline" "Steve" "Forge" 4)
              eq_refl eq_refl eq_refl) as [Hvanilla Hloader].
  split; [exact Hvanilla|]. split.
  - destruct (Hloader (pystr "Forge") (pystr "forge")) as [Hfirst _].
    { unfold loaders. rewrite !elem_of_cons. auto. }
    assert (Hid : get_id {[ pystr "id" := pystr "1.20.1-Forge-47.2.0" ]}
                  = pystr "1.20.1-Forge-47.2.0") by (vm_compute; reflexivity).
    rewrite <- Hid.
    apply (Hfirst [ {[ pystr "id" := pystr "1.20.1" ]} ]
                  {[ pystr "id" := pystr "1.20.1-Forge-47.2.0" ]} []).
    + reflexivity.
    + constructor; [|constructor]. intros H.
      apply str_in_needle in H; [|reflexivity]. vm_compute in H. discriminate.
    + apply str_in_needle; [reflexivity|]. vm_compute. reflexivity.
  - destruct (Hloader (pystr "Fabric") (pystr "fabric")) as [_ Hnone].
    { unfold loaders. rewrite !elem_of_cons. auto. }
    apply Hnone. unfold sample_installed.
    repeat constructor; intros H;
      (apply str_in_needle in H; [|reflexivity]); vm_compute in H;
      discriminate.
Defined.



(** C4.  Every command a launch attempt builds carries the heap arguments
    [-Xmx<ram>G] and [-Xms<max(1, ram // 2)>G] for the requested memory.
    The offline request for "Steve", Vanilla, 4 GB builds the session with
    name "Steve", the fixed identifier and the empty token, and the options
    with [-Xmx4G] and [-Xms2G]; with the library answering, the attempt logs
    that session and asks the library for a command with those options. *)
Theorem launch_heap_arguments :
  (forall env w v d o,
     GetMinecraftCommand v d o ∈ events (run (_launch env) w) ->
     jvmArguments o
     = [pystr "-Xmx" ++ str_of_int (ram_var (self w)) ++ pystr "G";
        pystr "-Xms" ++ str_of_int (Z.max 1 (ram_var (self w) / 2))
          ++ pystr "G"])
  /\ let session := {| s_name := pystr "Steve"; s_id := steve_uuid;
                       s_token := [] |} in
     let options := {| o_username := pystr "Steve"; o_uuid := steve_uuid;
                       o_token := [];
                       jvmArguments := [pystr "-Xmx4G"; pystr "-Xms2G"] |} in
     (forall w, (build_session (pystr "offline") (pystr "Steve") w).1.1
                = Next session)
     /\ build_options session 4 = options
     /\ forall env lib w mc_dir installed lv rel,
          login_type_var (self w) = pystr "offline" ->
          username_var (self w) = pystr "Steve" ->
          version_var (self w) = pystr "Vanilla" ->
          ram_var (self w) = 4 ->
          minecraft_launcher_lib env = Some lib ->
          get_minecraft_directory lib = Ok mc_dir ->
          get_installed_versions lib mc_dir = Ok installed ->
          get_latest_version lib = Ok lv ->
          lv !! pystr "release" = Some rel ->
          install_minecraft_version lib rel mc_dir = Ok tt ->
          Logging INFO "Session for launch: %s" [ASession session]
            ∈ events (run (_launch env) w)
          /\ GetMinecraftCommand rel mc_dir options
               ∈ events (run (_launch env) w).
Proof.
  split; [|cbv zeta; split; [|split]].
  - intros env w v d o Hin. apply command_event in Hin as [H _]. exact H.
  - intros w. rewrite build_session_steve. reflexivity.
  - reflexivity.
  - intros env lib w mc_dir installed lv rel
      Hlt Hu Hv Hram Hlib Hdir Hinst Hlatest Hrel Hins.
    exact (steve_launch_events env lib w mc_dir installed lv rel
             Hlt Hu Hv Hram Hlib Hdir Hinst Hlatest Hrel Hins).
Qed.

Lemma launch_heap_arguments_witness :
  let w := fresh_launcher "offline" "Steve" "Vanilla" 4 in
  let options := {| o_username := pystr "Steve"; o_uuid := steve_uuid;
                    o_token := [];
                    jvmArguments := [pystr "-Xmx4G"; pystr "-Xms2G"] |} in
  GetMinecraftCommand (pystr "1.21") (pystr ".minecraft") options
    ∈ events (run (_launch sample_env) w)
  /\ jvmArguments options
     = [pystr "-Xmx" ++ str_of_int 4 ++ pystr "G";
        pystr "-Xms" ++ str_of_int (Z.max 1 (4 / 2)) ++ pystr "G"].
Proof.
  cbv zeta.
  destruct launch_heap_arguments as (Hheap & _ & _ & Hsteve).
  destruct (Hsteve sample_env sample_lib
              (fresh_launcher "offline" "Steve" "Vanilla" 4)
              (pystr ".minecraft") sample_installed sample_latest
              (pystr "1.21") eq_refl eq_refl eq_refl eq_refl eq_refl eq_refl
              eq_refl eq_refl eq_refl eq_refl) as [_ Hcmd].
  split; [exact Hcmd|].
  exact (Hheap _ _ _ _ _ Hcmd).
Defined.

(** C6.  An offline launch attempt whose stripped username the validator
    rejects ends in Failed(InvalidUsername) after two log lines, the warning
    and the error box: it makes no call into the launcher library (directory,
    installed versions, latest version, install, command), does not import
    it, does not open the preferences file, and leaves the launcher as it
    was. *)
Theorem invalid_username_short_circuits env w :
  offline (self w) = true ->
  _validate_username (strip (username_var (self w))) = false ->
  outcome (run (_launch env) w) = Failed InvalidUsername
  /\ final (run (_launch env) w) = w
  /\ events (run (_launch env) w)
     = [Logging INFO "Launch initiated by user." [];
        Logging INFO "Settings – mode=%s, user=%s, type=%s, RAM=%sG"
          [AStr (login_type_var (self w));
           AStr (strip (username_var (self w)));
           AStr (version_var (self w)); AInt (ram_var (self w))];
        Logging WARNING "Invalid offline username: %s"
          [AStr (strip (username_var (self w)))];
        Messagebox showerror "Invalid Username" []]
  /\ Forall (fun e => library_call e = false) (events (run (_launch env) w)).
Proof.
  destruct w as [s f]. unfold offline. simpl. intros Hoff Hbad.
  unfold_handlers. rewrite Hoff, Hbad. unfold_handlers.
  repeat split. repeat constructor.
Qed.

Lemma invalid_username_short_circuits_witness :
  let r := run (_launch sample_env) (fresh_launcher "offline" "ab" "Vanilla" 4) in
  outcome r = Failed InvalidUsername
  /\ Forall (fun e => library_call e = false) (events r).
Proof.
  cbv zeta.
  destruct (invalid_username_short_circuits sample_env
              (fresh_launcher "offline" "ab" "Vanilla" 4) eq_refl eq_refl)
    as (Hout & _ & _ & Hcalls).
  split; [exact Hout | exact Hcalls].
Defined.

(** C7.  The identifier of an offline launch depends on the stripped
    username alone: two attempts with the same stripped username, whatever
    the library, the other settings and the stored configuration, put the
    same identifier in every command they build.  For "Steve" the identifier
    is 5627dd98-e6be-3c21-b8a8-e92344183641: the high nibble of byte 6 is 3
    and the top two bits of byte 8 are 10. *)
Theorem identifier_is_deterministic :
  (forall env1 env2 w1 w2 v1 d1 o1 v2 d2 o2,
     offline (self w1) = true -> offline (self w2) = true ->
     strip (username_var (self w1)) = strip (username_var (self w2)) ->
     GetMinecraftCommand v1 d1 o1 ∈ events (run (_launch env1) w1) ->
     GetMinecraftCommand v2 d2 o2 ∈ events (run (_launch env2) w2) ->
     o_uuid o1 = o_uuid o2)
  /\ offline_uuid (pystr "Steve") = Ok steve_uuid
  /\ exists bytes b6 b8,
       offline_digest (pystr "Steve") = Ok bytes
       /\ uuid_render bytes = steve_uuid
       /\ bytes !! 6%nat = Some b6 /\ b6 / 16 = 3
       /\ bytes !! 8%nat = Some b8 /\ b8 / 64 = 2.
Proof.
  split; [|split; [exact offline_uuid_steve|]].
  - intros env1 env2 w1 w2 v1 d1 o1 v2 d2 o2 Hoff1 Hoff2 Hstrip Hin1 Hin2.
    apply command_event in Hin1 as [_ H1], Hin2 as [_ H2].
    destruct (H1 Hoff1) as (_ & Hid1 & _), (H2 Hoff2) as (_ & Hid2 & _).
    rewrite Hstrip in Hid1. apply Ok_inj.
    exact (eq_trans (eq_sym Hid1) Hid2).
  - eexists _, _, _. split; [vm_compute; reflexivity|].
    split; [vm_compute; reflexivity|]. vm_compute. auto.
Qed.

Lemma identifier_is_deterministic_witness :
  let w1 := fresh_launcher "offline" "Steve" "Vanilla" 4 in
  let w2 := fresh_launcher "offline" "  Steve " "Forge" 8 in
  exists v1 d1 o1 v2 d2 o2,
    GetMinecraftCommand v1 d1 o1 ∈ events (run (_launch sample_env) w1)
    /\ GetMinecraftCommand v2 d2 o2 ∈ events (run (_launch sample_env) w2)
    /\ v1 <> v2
    /\ o_uuid o1 = o_uuid o2.
Proof.
  cbv zeta.
  exists (pystr "1.21"), (pystr ".minecraft"),
    (build_options {| s_name := pystr "Steve"; s_id := steve_uuid;
                      s_token := [] |} 4),
    (pystr "1.20.1-Forge-47.2.0"), (pystr ".minecraft"),
    (build_options {| s_name := pystr "Steve"; s_id := steve_uuid;
                      s_token := [] |} 8).
  assert (H1 : GetMinecraftCommand (pystr "1.21") (pystr ".minecraft")
                 (build_options {| s_name := pystr "Steve";
                                   s_id := steve_uuid; s_token := [] |} 4)
               ∈ events (run (_launch sample_env)
                           (fresh_launcher "offline" "Steve" "Vanilla" 4))).
  { apply list_elem_of_In. vm_compute. tauto. }
  assert (H2 : GetMinecraftCommand (pystr "1.20.1-Forge-47.2.0")
                 (pystr ".minecraft")
                 (build_options {| s_name := pystr "Steve";
                                   s_id := steve_uuid; s_token := [] |} 8)
               ∈ events (run (_launch sample_env)
                           (fresh_launcher "offline" "  Steve " "Forge" 8))).
  { apply list_elem_of_In. vm_compute. tauto. }
  split; [exact H1|]. split; [exact H2|]. split; [discriminate|].
  destruct identifier_is_deterministic as [Hsame _].
  exact (Hsame sample_env sample_env
           (fresh_launcher "offline" "Steve" "Vanilla" 4)
           (fresh_launcher "offline" "  Steve " "Forge" 8)
           _ _ _ _ _ _ eq_refl eq_refl eq_refl H1 H2).
Defined.

(** C8.  The handler works on the stripped username.  When the entry holds a
    username the validator accepts, with white space before and after it,
    the offline attempt is not stopped by validation although the padded
    text itself is rejected by the validator; the stripped username is what
    is stored under [offline_username], what every command carries as the
    user name, and what the identifier is derived from; and the attempt has
    the same outcome and the same events as one with the entry holding the
    bare username.  The attempt does launch with the stripped username: when
    the library resolves and installs a version, builds the command for the
    options with that username and its identifier, and the process starts,
    the attempt ends as done, having asked for that command and started
    that process. *)
Theorem whitespace_is_stripped env w l core r :
  username_var (self w) = l ++ core ++ r ->
  Forall (fun c => isspace c = true) l ->
  Forall (fun c => isspace c = true) r ->
  _validate_username core = true ->
  offline (self w) = true ->
  let padded := run (_launch env) w in
  let bare := run (_launch env) (with_username core w) in
  strip (username_var (self w)) = core
  /\ (l ++ r <> [] -> _validate_username (username_var (self w)) = false)
  /\ late (outcome padded)
  /\ config (self (final padded)) !! pystr "offline_username"
     = Some (VStr core)
  /\ (forall v d o, GetMinecraftCommand v d o ∈ events padded ->
        o_username o = core /\ offline_uuid core = Ok (o_uuid o))
  /\ outcome padded = outcome bare
  /\ events padded = events bare
  /\ exists ident,
       offline_uuid core = Ok ident
       /\ forall lib mc_dir version_id game_type cmd,
            let options :=
              {| o_username := core; o_uuid := ident; o_token := [];
                 jvmArguments := jvm_arguments (ram_var (self w)) |} in
            minecraft_launcher_lib env = Some lib ->
            get_minecraft_directory lib = Ok mc_dir ->
            (pick_version lib mc_dir (version_var (self w))
               (persisted env w)).1.1 = Next (version_id, game_type) ->
            install_minecraft_version lib version_id mc_dir = Ok tt ->
            get_minecraft_command lib version_id mc_dir options = Ok cmd ->
            subprocess_Popen env cmd = Ok tt ->
            outcome padded = Done
            /\ GetMinecraftCommand version_id mc_dir options ∈ events padded
            /\ Popen cmd ∈ events padded.
Proof.
  intros Hu Hl Hr Hvalid Hoff. cbv zeta.
  assert (Hstrip : strip (username_var (self w)) = core).
  { rewrite Hu. apply strip_padded; try assumption.
    - apply validate_username_iff in Hvalid as [Hlen _].
      intros ->. simpl in Hlen. lia.
    - apply validate_username_iff in Hvalid as [_ Hchars].
      eapply Forall_impl; [exact Hchars|].
      intros c Hc. apply word_class_not_space, word_class_spec, Hc. }
  assert (Hpass : passes_validation (self w) = true).
  { apply offline_valid_passes; [exact Hoff|]. rewrite Hstrip. exact Hvalid. }
  destruct (passes_validation_final env w Hpass) as [Hlate Hfinal].
  split; [exact Hstrip|].
  split; [intros Hne; rewrite Hu; apply padded_is_invalid; assumption|].
  split; [exact Hlate|]. split.
  { rewrite Hfinal. simpl.
    destruct (updated_config_lookup (self w)) as (_ & _ & Hname & _).
    rewrite Hname, Hoff, Hstrip. reflexivity. }
  split.
  { intros v d o Hin. apply command_event in Hin as [_ Hsession].
    destruct (Hsession Hoff) as (Hname & Hid & _).
    rewrite Hstrip in Hname, Hid. split; assumption. }
  assert (Hsame : same_but_username w (with_username core w)).
  { unfold same_but_username, with_username. simpl.
    rewrite Hstrip, (strip_valid core Hvalid). repeat split. }
  destruct (run_respects (_launch env) _ _ (launch_respects env) Hsame)
    as (Ho & He & _).
  split; [exact Ho|]. split; [exact He|].
  destruct (valid_offline_uuid core Hvalid) as [ident Hid].
  exists ident. split; [exact Hid|].
  intros lib mc_dir version_id game_type cmd
    Hlib Hdir Hpick Hins Hcmd Hpopen.
  rewrite <- Hstrip in Hid.
  pose proof (offline_session env w ident Hoff Hid) as Hsession.
  rewrite Hstrip in Hsession.
  rewrite <- Hstrip in Hsession at 1.
  exact (launch_done env w lib mc_dir version_id game_type _ cmd
           Hpass Hlib Hdir Hpick Hins Hsession Hcmd Hpopen).
Qed.

Lemma whitespace_is_stripped_witness :
  let w := fresh_launcher "offline" "  Steve  " "Vanilla" 4 in
  let r := run (_launch sample_env) w in
  _validate_username (username_var (self w)) = false
  /\ strip (username_var (self w)) = pystr "Steve"
  /\ config (self (final r)) !! pystr "offline_username"
     = Some (VStr (pystr "Steve"))
  /\ outcome r = Done
  /\ GetMinecraftCommand (pystr "1.21") (pystr ".minecraft")
       {| o_username := pystr "Steve"; o_uuid := steve_uuid; o_token := [];
          jvmArguments := jvm_arguments 4 |}
       ∈ events r
  /\ Popen [pystr "java"; pystr "1.21"] ∈ events r.
Proof.
  cbv zeta.
  destruct (whitespace_is_stripped sample_env
              (fresh_launcher "offline" "  Steve  " "Vanilla" 4)
              (pystr "  ") (pystr "Steve") (pystr "  ") eq_refl)
    as (Hstrip & Hbad & _ & Hstored & _ & _ & _ & ident & Hid & Hlaunch).
  - repeat constructor.
  - repeat constructor.
  - reflexivity.
  - reflexivity.
  - split; [apply Hbad; discriminate|]. split; [exact Hstrip|].
    split; [exact Hstored|].
    assert (Hsteve : ident = steve_uuid).
    { apply Ok_inj. rewrite <- Hid. exact offline_uuid_steve. }
    subst ident.
    exact (Hlaunch sample_lib (pystr ".minecraft") (pystr "1.21")
             (pystr "Vanilla") [pystr "java"; pystr "1.21"]
             eq_refl eq_refl ltac:(vm_compute; reflexivity)
             eq_refl eq_refl eq_refl).
Defined.

(** C9 (counterexample).  The configuration was loaded from a file that
    holds one key the launcher does not know, and the file cannot be opened
    for writing.  The offline attempt for "Steve" passes validation and
    updates the dictionary, the failure to save is logged, and the file is
    what it was: nothing has been written to it. *)
Lemma unwritable_file_keeps_old_preferences :
  let w := themed_launcher in
  let r := run (_launch env_read_only) w in
  passes_validation (self w) = true
  /\ config (self (final r)) !! pystr "ram" = Some (VInt 4)
  /\ config_file w = JsonObject {[ pystr "theme" := VStr (pystr "dark") ]}
  /\ config_file (final r)
     = JsonObject {[ pystr "theme" := VStr (pystr "dark") ]}
  /\ Logging ERROR "Failed to save config: %s"
       [AExc (OSError (pystr "read-only"))] ∈ events r.
Proof.
  cbv zeta. split; [reflexivity|].
  destruct (passes_validation_final env_read_only themed_launcher eq_refl)
    as [_ Hfinal].
  rewrite Hfinal. split; [reflexivity|]. split; [reflexivity|].
  split; [reflexivity|].
  apply list_elem_of_In. vm_compute. tauto.
Qed.

(** C9 (amended).  After a launch attempt that passes validation, the
    configuration dictionary holds the login type under [login_type], the
    memory under [ram] and, in offline mode, the stripped username under
    [offline_username]; in Microsoft mode [offline_username] is as before;
    every other key is as before.  When the save succeeds (the file could
    be opened for writing; the write is taken to complete), the preferences
    file holds that dictionary, the other keys with it.  When the file
    could not be opened, the failure is logged and the file is as it was:
    only the dictionary in memory has changed. *)
Theorem config_update_frame env w :
  passes_validation (self w) = true ->
  let c := config (self w) in
  let c' := config (self (final (run (_launch env) w))) in
  c' !! pystr "login_type" = Some (VStr (login_type_var (self w)))
  /\ c' !! pystr "ram" = Some (VInt (ram_var (self w)))
  /\ c' !! pystr "offline_username"
     = (if offline (self w)
        then Some (VStr (strip (username_var (self w))))
        else c !! pystr "offline_username")
  /\ (forall k, k ∉ preference_keys -> c' !! k = c !! k)
  /\ config_file (final (run (_launch env) w))
     = match open_config_for_write env with
       | Ok _ => JsonObject c'
       | Err _ => config_file w
       end
  /\ forall exc,
       open_config_for_write env = Err exc ->
       Logging ERROR "Failed to save config: %s" [AExc exc]
         ∈ events (run (_launch env) w).
Proof.
  intros Hpass. cbv zeta.
  destruct (launch_events_prefix env w Hpass) as [rest Hev].
  destruct (passes_validation_final env w Hpass) as [_ ->].
  unfold persisted. simpl.
  destruct (updated_config_lookup (self w)) as (H1 & H2 & H3 & H4).
  split; [exact H1|]. split; [exact H2|]. split; [exact H3|].
  split; [exact H4|]. split; [reflexivity|].
  intros exc Hexc. rewrite Hev. unfold save_events. rewrite Hexc.
  rewrite !elem_of_app, !elem_of_cons. auto.
Qed.

Lemma config_update_frame_witness :
  let w := themed_launcher in
  let c' := config (self (final (run (_launch sample_env) w))) in
  c' !! pystr "theme" = Some (VStr (pystr "dark"))
  /\ c' !! pystr "ram" = Some (VInt 4)
  /\ config_file (final (run (_launch sample_env) w)) = JsonObject c'.
Proof.
  cbv zeta.
  destruct (config_update_frame sample_env themed_launcher eq_refl)
    as (_ & Hram & _ & Hframe & Hfile & _).
  split; [|split; [exact Hram | exact Hfile]].
  rewrite Hframe; [reflexivity|].
  unfold preference_keys. rewrite !not_elem_of_cons.
  repeat split; try discriminate. apply not_elem_of_nil.
Defined.

(** * The launch paths, one by one *)

Section AfterValidation.
Context (env : Env) (w : World).
Context (Hpass : passes_validation (self w) = true).


Section WithLibrary.
Context (lib : Lib) (Hlib : minecraft_launcher_lib env = Some lib).


Section InDirectory.
Context (mc_dir : list N) (Hdir : get_minecraft_directory lib = Ok mc_dir).

Lemma resolution_failure exc :
  (pick_version lib mc_dir (version_var (self w)) (persisted env w)).1.1
  = Raise exc ->
  run (_launch env) w
  = {| outcome := Failed VersionResolutionError;
       final := persisted env w;
       events :=
         launch_head w ++ save_events env
           ++ [Import; GetMinecraftDirectory]
           ++ (pick_version lib mc_dir (version_var (self w))
                 (persisted env w)).2
           ++ [Logging ERROR "Version selection failed: %s" [AExc exc];
               Messagebox showerror "Launch Error" [AExc exc]] |}.
Proof.
  intros Hpick. enter_directory Hpass Hlib Hdir.
  eapply sat_bind_return.
  { unfold try_.
    rewrite (triple_eta (pick_version _ _ _ _)), Hpick.
    rewrite (proj1 (pick_version_facts _ _ _ _)). reflexivity. }
  finish_run.
Qed.

(** X3.  When listing the installed versions raises, the attempt ends in
    the version-resolution failure: the exception is logged and shown in an
    error box, and nothing is installed, no command is built and no process
    is started. *)
Theorem enumeration_failure_is_reported exc :
  get_installed_versions lib mc_dir = Err exc ->
  run (_launch env) w
  = {| outcome := Failed VersionResolutionError;
       final := persisted env w;
       events :=
         launch_head w ++ save_events env
           ++ [Import; GetMinecraftDirectory; GetInstalledVersions mc_dir;
               Logging ERROR "Version selection failed: %s" [AExc exc];
               Messagebox showerror "Launch Error" [AExc exc]] |}.
Proof.
  intros Hinst.
  assert (Hpick : pick_version lib mc_dir (version_var (self w))
                    (persisted env w)
                  = (Raise exc, persisted env w,
                     [GetInstalledVersions mc_dir])).
  { unfold pick_version, bind, call, emit, lift. rewrite Hinst. reflexivity. }
  rewrite (resolution_failure exc); [|rewrite Hpick; reflexivity].
  rewrite Hpick. reflexivity.
Qed.

Section Resolved.
Context (version_id game_type : list N).
Context (Hpick : (pick_version lib mc_dir (version_var (self w))
                    (persisted env w)).1.1
                 = Next (version_id, game_type)).

(** X4.  When installing the resolved version raises, the attempt ends in
    the installation failure: the version and the exception are logged and
    shown in an error box, no command is built and no process is started. *)
Theorem install_failure_stops_launch exc :
  install_minecraft_version lib version_id mc_dir = Err exc ->
  run (_launch env) w
  = {| outcome := Failed InstallError;
       final := persisted env w;
       events :=
         launch_head w ++ save_events env
           ++ [Import; GetMinecraftDirectory]
           ++ (pick_version lib mc_dir (version_var (self w))
                 (persisted env w)).2
           ++ [InstallMinecraftVersion version_id mc_dir;
               Logging ERROR "Installation of %s failed: %s"
                 [AStr version_id; AExc exc];
               Messagebox showerror "Installation Error"
                 [AStr version_id; AExc exc]] |}.
Proof.
  intros Hins. enter_resolved Hpass Hlib Hdir Hpick.
  eapply sat_bind_return.
  { unfold ensure_installed, try_, call, bind, emit, lift.
    rewrite Hins. reflexivity. }
  finish_run.
Qed.

Section Installed.
Context (Hins : install_minecraft_version lib version_id mc_dir = Ok tt).
Context (session : Session).
Context (Hsession : (build_session (login_type_var (self w))
                       (strip (username_var (self w)))
                       (persisted env w)).1.1
                    = Next session).

(** X5.  When the library fails to build the command, the attempt ends in
    the launch failure: the exception is logged and shown in an error box,
    and no process is started. *)
Theorem command_failure_spawns_nothing exc :
  get_minecraft_command lib version_id mc_dir
    (build_options session (ram_var (self w))) = Err exc ->
  run (_launch env) w
  = {| outcome := Failed LaunchError;
       final := persisted env w;
       events :=
         launch_head w ++ save_events env
           ++ [Import; GetMinecraftDirectory]
           ++ (pick_version lib mc_dir (version_var (self w))
                 (persisted env w)).2
           ++ [InstallMinecraftVersion version_id mc_dir;
               Logging INFO "Session for launch: %s" [ASession session];
               GetMinecraftCommand version_id mc_dir
                 (build_options session (ram_var (self w)));
               Logging ERROR "Launch error: %s" [AExc exc];
               Messagebox showerror "Launch Failed" [AExc exc]] |}.
Proof.
  intros Hcmd. enter_start Hpass Hlib Hdir Hpick Hins Hsession.
  eapply sat_eq.
  { unfold start_game, try_, call, bind, emit, lift.
    rewrite Hcmd. reflexivity. }
  finish_run.
Qed.

(** X6.  When the command is built and starting the process raises, the
    attempt ends in the launch failure: the exception is logged and shown
    in an error box; the "Launching" box is not shown. *)
Theorem spawn_failure_is_reported cmd exc :
  get_minecraft_command lib version_id mc_dir
    (build_options session (ram_var (self w))) = Ok cmd ->
  subprocess_Popen env cmd = Err exc ->
  run (_launch env) w
  = {| outcome := Failed LaunchError;
       final := persisted env w;
       events :=
         launch_head w ++ save_events env
           ++ [Import; GetMinecraftDirectory]
           ++ (pick_version lib mc_dir (version_var (self w))
                 (persisted env w)).2
           ++ [InstallMinecraftVersion version_id mc_dir;
               Logging INFO "Session for launch: %s" [ASession session];
               GetMinecraftCommand version_id mc_dir
                 (build_options session (ram_var (self w)));
               Logging INFO "Executing command: %s"
                 [AStr (str_join (pystr " ") (take 8 cmd) ++ pystr " ...")];
               Popen cmd;
               Logging ERROR "Launch error: %s" [AExc exc];
               Messagebox showerror "Launch Failed" [AExc exc]] |}.
Proof.
  intros Hcmd Hpopen. enter_start Hpass Hlib Hdir Hpick Hins Hsession.
  eapply sat_eq.
  { unfold start_game, try_, call, bind, emit, lift, logging, ret, raise.
    rewrite Hcmd. cbv beta iota. rewrite Hpopen. reflexivity. }
  finish_run.
Qed.

(** X7.  When every step succeeds, the attempt ends as done, whether or
    not the preferences could be saved: the resolved version is installed,
    one command is built for it with the session and the heap arguments,
    one process is started with exactly the command the library returned,
    and the "Launching" box names the edition that was resolved. *)
Theorem successful_launch cmd :
  get_minecraft_command lib version_id mc_dir
    (build_options session (ram_var (self w))) = Ok cmd ->
  subprocess_Popen env cmd = Ok tt ->
  run (_launch env) w
  = {| outcome := Done;
       final := persisted env w;
       events :=
         launch_head w ++ save_events env
           ++ [Import; GetMinecraftDirectory]
           ++ (pick_version lib mc_dir (version_var (self w))
                 (persisted env w)).2
           ++ [InstallMinecraftVersion version_id mc_dir;
               Logging INFO "Session for launch: %s" [ASession session];
               GetMinecraftCommand version_id mc_dir
                 (build_options session (ram_var (self w)));
               Logging INFO "Executing command: %s"
                 [AStr (str_join (pystr " ") (take 8 cmd) ++ pystr " ...")];
               Popen cmd;
               Messagebox showinfo "Launching" [AStr game_type];
               Logging INFO "Minecraft launched." []] |}.
Proof.
  intros Hcmd Hpopen. enter_start Hpass Hlib Hdir Hpick Hins Hsession.
  eapply sat_eq.
  { unfold start_game, try_, call, bind, emit, lift, logging, messagebox,
      return_, ret, raise.
    rewrite Hcmd. cbv beta iota. rewrite Hpopen. reflexivity. }
  finish_run.
Qed.

End Installed.
End Resolved.
End InDirectory.
End WithLibrary.
End AfterValidation.



Lemma enumeration_failure_is_reported_witness :
  outcome (run (_launch (faulty_env 1))
             (fresh_launcher "offline" "Steve" "Vanilla" 4))
  = Failed VersionResolutionError.
Proof.
  exact (f_equal outcome
           (enumeration_failure_is_reported (faulty_env 1)
              (fresh_launcher "offline" "Steve" "Vanilla" 4)
              eq_refl (faulty_lib 1) eq_refl (pystr ".minecraft") eq_refl
              broken eq_refl)).
Defined.

Lemma install_failure_stops_launch_witness :
  outcome (run (_launch (faulty_env 3))
             (fresh_launcher "offline" "Steve" "Vanilla" 4))
  = Failed InstallError.
Proof.
  exact (f_equal outcome
           (install_failure_stops_launch (faulty_env 3)
              (fresh_launcher "offline" "Steve" "Vanilla" 4)
              eq_refl (faulty_lib 3) eq_refl (pystr ".minecraft") eq_refl
              (pystr "1.21") (pystr "Vanilla")
              ltac:(vm_compute; reflexivity) broken eq_refl)).
Defined.

Lemma command_failure_spawns_nothing_witness :
  outcome (run (_launch (faulty_env 4))
             (fresh_launcher "offline" "Steve" "Vanilla" 4))
  = Failed LaunchError.
Proof.
  exact (f_equal outcome
           (command_failure_spawns_nothing (faulty_env 4)
              (fresh_launcher "offline" "Steve" "Vanilla" 4)
              eq_refl (faulty_lib 4) eq_refl (pystr ".minecraft") eq_refl
              (pystr "1.21") (pystr "Vanilla")
              ltac:(vm_compute; reflexivity) eq_refl
              {| s_name := pystr "Steve"; s_id := steve_uuid; s_token := [] |}
              ltac:(vm_compute; reflexivity) broken eq_refl)).
Defined.

Lemma spawn_failure_is_reported_witness :
  outcome (run (_launch (faulty_env 5))
             (fresh_launcher "offline" "Steve" "Vanilla" 4))
  = Failed LaunchError.
Proof.
  exact (f_equal outcome
           (spawn_failure_is_reported (faulty_env 5)
              (fresh_launcher "offline" "Steve" "Vanilla" 4)
              eq_refl (faulty_lib 5) eq_refl (pystr ".minecraft") eq_refl
              (pystr "1.21") (pystr "Vanilla")
              ltac:(vm_compute; reflexivity) eq_refl
              {| s_name := pystr "Steve"; s_id := steve_uuid; s_token := [] |}
              ltac:(vm_compute; reflexivity)
              [pystr "java"; pystr "1.21"] broken eq_refl eq_refl)).
Defined.

Lemma successful_launch_witness :
  outcome (run (_launch env_read_only)
             (fresh_launcher "offline" "Steve" "Forge" 4))
  = Done.
Proof.
  exact (f_equal outcome
           (successful_launch env_read_only
              (fresh_launcher "offline" "Steve" "Forge" 4)
              eq_refl sample_lib eq_refl (pystr ".minecraft") eq_refl
              (pystr "1.20.1-Forge-47.2.0") (pystr "Forge")
              ltac:(vm_compute; reflexivity) eq_refl
              {| s_name := pystr "Steve"; s_id := steve_uuid; s_token := [] |}
              ltac:(vm_compute; reflexivity)
              [pystr "java"; pystr "1.20.1-Forge-47.2.0"] eq_refl eq_refl)).
Defined.

(** * The two validation failures *)

Lemma launch_not_authenticated env w :
  microsoft (self w) = true ->
  ms_profile (self w) = None ->
  run (_launch env) w
  = {| outcome := Failed NotAuthenticated;
       final := w;
       events :=
         launch_head w
           ++ [Logging WARNING "Microsoft login missing before launch." [];
               Messagebox showerror "Not Logged In" []] |}.
Proof.
  intros Hms Hprofile. apply run_sat. unfold _launch.
  apply sat_bind_emit. do 4 apply sat_bind_reads. apply sat_bind_emit.
  eapply sat_bind_return.
  { rewrite (microsoft_login_type _ Hms).
    unfold validate, when, bind, reads, ret, logging, messagebox, emit,
      return_.
    eval_str_eqb. cbn [andb negb]. cbv beta iota. rewrite Hprofile.
    reflexivity. }
  finish_run.
Qed.

Lemma launch_invalid_username env w :
  offline (self w) = true ->
  _validate_username (strip (username_var (self w))) = false ->
  outcome (run (_launch env) w) = Failed InvalidUsername.
Proof.
  intros Hoff Hbad. apply run_sat. unfold _launch.
  apply sat_bind_emit. do 4 apply sat_bind_reads. apply sat_bind_emit.
  eapply sat_bind_return.
  { unfold offline in Hoff.
    unfold validate, when, bind, reads, ret, logging, messagebox, emit,
      return_.
    rewrite Hoff, Hbad. reflexivity. }
  reflexivity.
Qed.

(** X8.  A Microsoft-mode attempt made before any Microsoft login ends as
    "not authenticated" after two log lines, the warning and the error box:
    nothing is saved, the library is not imported, and the launcher is as it
    was.  The text of the username entry plays no part. *)
Theorem not_authenticated_short_circuits env w :
  microsoft (self w) = true ->
  ms_profile (self w) = None ->
  run (_launch env) w
  = {| outcome := Failed NotAuthenticated;
       final := w;
       events :=
         launch_head w
           ++ [Logging WARNING "Microsoft login missing before launch." [];
               Messagebox showerror "Not Logged In" []] |}.
Proof. exact (launch_not_authenticated env w). Qed.

Lemma not_authenticated_short_circuits_witness :
  outcome (run (_launch sample_env)
             (fresh_launcher "microsoft" "Steve" "Vanilla" 4))
  = Failed NotAuthenticated.
Proof.
  exact (f_equal outcome
           (not_authenticated_short_circuits sample_env
              (fresh_launcher "microsoft" "Steve" "Vanilla" 4)
              eq_refl eq_refl)).
Defined.

(** * Version resolution without a look-up *)

(** X9.  For Forge or Fabric with a matching installed version, resolution
    asks the library for the installed versions only: the latest version is
    not looked up, so its failure cannot stop such a launch. *)
Theorem modloader_needs_no_lookup lib mc_dir w installed edition loader
    pre v post :
  get_installed_versions lib mc_dir = Ok installed ->
  (edition, loader) ∈ loaders ->
  installed = pre ++ v :: post ->
  Forall (fun u => ~ contains_ci loader (get_id u)) pre ->
  contains_ci loader (get_id v) ->
  pick_version lib mc_dir edition w
  = (Next (get_id v, edition), w,
     [GetInstalledVersions mc_dir; using_version (get_id v) edition]).
Proof.
  intros Hinst Hin Hsplit Hpre Hv. apply loaders_cases in Hin as Hcases.
  assert (Hlow : lower loader = loader)
    by (destruct Hcases as [[_ ->] | [_ ->]]; reflexivity).
  assert (Hne : loader <> [])
    by (destruct Hcases as [[_ ->] | [_ ->]]; discriminate).
  pose proof (next_id_first _ _ _ post Hlow Hne Hpre Hv) as Hnext.
  rewrite <- Hsplit in Hnext.
  pose proof (contains_ci_nonempty _ _ Hne Hv) as Hid.
  unfold using_version.
  destruct Hcases as [[-> ->] | [-> ->]]; unfold_handlers; rewrite Hinst;
    eval_str_eqb; unfold_handlers; rewrite Hnext; unfold_handlers;
    destruct (get_id v); (congruence || reflexivity).
Qed.

Lemma modloader_needs_no_lookup_witness :
  (pick_version (faulty_lib 2) (pystr ".minecraft") (pystr "Forge")
     (fresh_launcher "offline" "Steve" "Forge" 4)).1.1
  = Next (get_id {[ pystr "id" := pystr "1.20.1-Forge-47.2.0" ]},
          pystr "Forge").
Proof.
  rewrite (modloader_needs_no_lookup (faulty_lib 2) (pystr ".minecraft")
             (fresh_launcher "offline" "Steve" "Forge" 4)
             sample_installed (pystr "Forge") (pystr "forge")
             [ {[ pystr "id" := pystr "1.20.1" ]} ]
             {[ pystr "id" := pystr "1.20.1-Forge-47.2.0" ]} []).
  - reflexivity.
  - reflexivity.
  - unfold loaders. apply list_elem_of_here.
  - reflexivity.
  - constructor; [|constructor]. intros H.
    apply str_in_needle in H; [|reflexivity]. vm_compute in H. discriminate.
  - apply str_in_needle; [reflexivity|]. vm_compute. reflexivity.
Defined.

(** X10.  Looking for a loader among the installed versions never raises:
    an entry without an identifier is passed over.  The result is the
    identifier of the first entry whose lower-cased identifier contains the
    name, or nothing when no entry does. *)
Theorem next_id_skips_entries_without_id needle installed :
  needle <> [] ->
  match next_id needle installed with
  | Ok (Some i) =>
      exists pre v post,
        installed = pre ++ v :: post
        /\ v !! pystr "id" = Some i
        /\ str_in needle (lower i) = true
        /\ Forall (fun u => str_in needle (lower (get_id u)) = false) pre
  | Ok None =>
      Forall (fun u => str_in needle (lower (get_id u)) = false) installed
  | Err _ => False
  end.
Proof.
  intros Hne. induction installed as [|u installed IH]; simpl.
  - constructor.
  - fold (get_id u). destruct (str_in needle (lower (get_id u))) eqn:E.
    + unfold getitem. unfold get_id in E.
      destruct (u !! pystr "id") as [i|] eqn:Hid; simpl in E.
      * exists [], u, installed. repeat split; try assumption. constructor.
      * destruct needle; [congruence | discriminate].
    + destruct (next_id needle installed) as [[i|]|]; [| |contradiction].
      * destruct IH as (pre & v & post & -> & Hid & Hin & Hpre).
        exists (u :: pre), v, post. repeat split; try assumption.
        constructor; assumption.
      * constructor; assumption.
Qed.

Lemma next_id_skips_entries_without_id_witness :
  match next_id (pystr "forge")
          [ ∅; {[ pystr "id" := pystr "1.20.1-Forge-47.2.0" ]} ] with
  | Ok (Some i) =>
      exists pre v post,
        [ ∅; {[ pystr "id" := pystr "1.20.1-Forge-47.2.0" ]} ]
        = pre ++ v :: post
        /\ v !! pystr "id" = Some i
        /\ str_in (pystr "forge") (lower i) = true
        /\ Forall (fun u => str_in (pystr "forge") (lower (get_id u)) = false)
             pre
  | Ok None =>
      Forall (fun u => str_in (pystr "forge") (lower (get_id u)) = false)
        [ ∅; {[ pystr "id" := pystr "1.20.1-Forge-47.2.0" ]} ]
  | Err _ => False
  end.
Proof.
  exact (next_id_skips_entries_without_id (pystr "forge")
           [ ∅; {[ pystr "id" := pystr "1.20.1-Forge-47.2.0" ]} ]
           ltac:(discriminate)).
Defined.

(** * Where the options of a command come from *)

Lemma build_session_no_return login_type username w o :
  (build_session login_type username w).1.1 <> Return o.
Proof.
  unfold build_session, bind, lift, reads, ret, raise, getattr.
  destruct (str_eqb login_type (pystr "offline")).
  - destruct (offline_uuid username); discriminate.
  - simpl. destruct (ms_profile (self w)) as [p|]; simpl; [|discriminate].
    destruct (getitem p (pystr "name")); simpl; [|discriminate].
    destruct (getitem p (pystr "id")); simpl; [|discriminate].
    destruct (ms_token (self w)); discriminate.
Qed.

Lemma build_session_value E login_type username w :
  quiet E w (build_session login_type username)
    (fun session =>
       (build_session login_type username w).1.1 = Next session).
Proof.
  unfold quiet, sat.
  destruct (build_session_pure login_type username w) as [Hw Hev].
  pose proof (build_session_no_return login_type username w) as Hret.
  destruct (build_session login_type username w) as [[r w'] ev].
  simpl in *. subst. split; [reflexivity|]. split; [constructor|].
  destruct r as [session|o|e]; [reflexivity | | exact I].
  exfalso. exact (Hret o eq_refl).
Qed.

Section Commands.
Context (P : Options -> Prop) (env : Env).

Lemma pick_version_commands lib mc_dir game_type w :
  quiet (on_command P) w (pick_version lib mc_dir game_type) (fun _ => True).
Proof.
  eapply quiet_weaken_events; [apply pick_version_resolution|].
  intros [] H; simpl in *; exact I || contradiction.
Qed.

Lemma start_game_commands lib version_id mc_dir game_type options w :
  P options ->
  quiet (on_command P) w
    (start_game env lib version_id mc_dir game_type options) (fun _ => True).
Proof.
  intros HP. unfold start_game.
  apply quiet_try; [|quiet_auto].
  apply quiet_bind with (Q1 := fun _ => True);
    [apply quiet_call; [exact HP | auto] | quiet_auto].
Qed.
End Commands.

Lemma launch_commands_from_session env w :
  Forall (on_command (from_session env w)) (events (run (_launch env) w)).
Proof.
  apply run_sat. unfold _launch.
  apply sat_bind_emit. do 4 apply sat_bind_reads. apply sat_bind_emit.
  eapply sat_bind; [apply validate_spec|].
  intros r w1 ev1 (-> & Hev1 & Hr).
  assert (Hok1 : Forall (on_command (from_session env w)) ev1).
  { eapply Forall_impl; [exact Hev1|]. intros [] H; simpl; tauto. }
  destruct r as [[]|o|e]; [| |contradiction].
  2:{ unfold as_run. simpl. repeat (apply List.Forall_cons; [exact I|]).
      exact Hok1. }
  eapply sat_bind; [apply persist_config_spec|].
  intros r w2 ev2 (-> & -> & Hev2).
  assert (Hok2 : Forall (on_command (from_session env w)) ev2).
  { eapply Forall_impl; [exact Hev2|]. intros [] H; simpl; tauto. }
  eapply sat_of_quiet with (E := on_command (from_session env w))
                           (Q := fun _ => True).
  - apply quiet_bind with (Q1 := fun _ => True).
    { unfold import_launcher_lib. quiet_auto. }
    intros lib _.
    apply quiet_bind with (Q1 := fun _ => True); [quiet_auto|].
    intros mc_dir _.
    apply quiet_bind with (Q1 := fun _ => True).
    { apply quiet_try; [apply pick_version_commands | quiet_auto]. }
    intros picked _. cbv zeta.
    apply quiet_bind with (Q1 := fun _ => True).
    { unfold ensure_installed. quiet_auto. }
    intros _ _.
    eapply quiet_bind; [apply build_session_value|]. intros session Hs.
    apply quiet_bind with (Q1 := fun _ => True); [quiet_auto|]. intros _ _.
    apply start_game_commands. exists session. split; [exact Hs | reflexivity].
  - intros r ev Hev _. unfold as_run. simpl.
    repeat (apply List.Forall_cons; [exact I|]).
    repeat (apply Forall_app; split; try assumption).
Qed.

Lemma logged_in_eq fresh w :
  logged_in fresh w
  = {| self :=
         {| username_var := username_var (self w);
            login_type_var := login_type_var (self w);
            version_var := version_var (self w);
            ram_var := ram_var (self w);
            config := config (self w);
            ms_profile :=
              Some (<[pystr "name" := pystr "Player"]>
                      (<[pystr "id" := fresh]> ∅));
            ms_token := Some (pystr "placeholder_token") |};
       config_file := config_file w |}.
Proof. reflexivity. Qed.

Lemma placeholder_session_built fresh env username w :
  microsoft (self w) = true ->
  (build_session (login_type_var (self (logged_in fresh w))) username
     (persisted env (logged_in fresh w))).1.1
  = Next (placeholder_session fresh).
Proof.
  intros Hms. rewrite logged_in_eq. simpl.
  rewrite (microsoft_login_type _ Hms).
  unfold build_session. eval_str_eqb.
  unfold bind, reads, lift, getattr, getitem, ret. simpl.
  rewrite lookup_insert_eq.
  rewrite lookup_insert_ne by discriminate. rewrite lookup_insert_eq.
  reflexivity.
Qed.

(** X11.  The placeholder Microsoft login sets the profile and the token
    and nothing else.  After it, a Microsoft-mode attempt passes validation
    whatever the username entry holds, and every command it builds carries
    the name "Player", the identifier drawn at login and the placeholder
    token. *)
Theorem microsoft_session_after_login fresh w :
  microsoft (self w) = true ->
  let w1 := logged_in fresh w in
  self w1
  = {| username_var := username_var (self w);
       login_type_var := login_type_var (self w);
       version_var := version_var (self w);
       ram_var := ram_var (self w);
       config := config (self w);
       ms_profile :=
         Some {[ pystr "name" := pystr "Player"; pystr "id" := fresh ]};
       ms_token := Some (pystr "placeholder_token") |}
  /\ config_file w1 = config_file w
  /\ passes_validation (self w1) = true
  /\ forall env v d o,
       GetMinecraftCommand v d o ∈ events (run (_launch env) w1) ->
       o_username o = pystr "Player"
       /\ o_uuid o = fresh
       /\ o_token o = pystr "placeholder_token".
Proof.
  intros Hms. cbv zeta. split; [reflexivity|]. split; [reflexivity|]. split.
  - unfold passes_validation, offline, microsoft. rewrite logged_in_eq. simpl.
    rewrite (microsoft_login_type _ Hms). reflexivity.
  - intros env v d o Hin.
    pose proof (launch_commands_from_session env (logged_in fresh w)) as H.
    rewrite Forall_forall in H. specialize (H _ Hin).
    destruct H as (session & Hs & ->).
    rewrite (placeholder_session_built fresh env _ w Hms) in Hs.
    injection Hs as <-. repeat split.
Qed.

Lemma microsoft_session_after_login_witness :
  passes_validation
    (self (logged_in sample_uuid4
             (fresh_launcher "microsoft" "" "Vanilla" 4)))
  = true.
Proof.
  destruct (microsoft_session_after_login sample_uuid4
              (fresh_launcher "microsoft" "" "Vanilla" 4) eq_refl)
    as (_ & _ & Hpass & _).
  exact Hpass.
Defined.

(** * The text of an offline identifier *)

Lemma nibbles b :
  0 <= b < 256 -> 0 <= b / 16 < 16 /\ 0 <= b mod 16 < 16.
Proof. intros H. Z.div_mod_to_equations. lia. Qed.

Lemma hex_digit_char d : 0 <= d < 16 -> hex_char (hex_digit d).
Proof.
  intros H. unfold hex_digit, hex_char.
  destruct (Z.ltb_spec d 10); lia.
Qed.

Lemma hex_byte_chars b :
  0 <= b < 256 ->
  hex_char (hex_digit (b / 16)) /\ hex_char (hex_digit (b mod 16)).
Proof.
  intros H. destruct (nibbles b H). split; apply hex_digit_char; assumption.
Qed.

Lemma version_char b : 48 <= b < 64 -> hex_digit (b / 16) = 51%N.
Proof.
  intros H. replace (b / 16) with 3 by (Z.div_mod_to_equations; lia).
  reflexivity.
Qed.

Lemma variant_char b :
  128 <= b < 192 -> hex_digit (b / 16) ∈ [56; 57; 97; 98]%N.
Proof.
  intros H.
  assert (Hq : b / 16 = 8 \/ b / 16 = 9 \/ b / 16 = 10 \/ b / 16 = 11)
    by (Z.div_mod_to_equations; lia).
  destruct Hq as [-> | [-> | [-> | ->]]]; apply list_elem_of_In;
    vm_compute; tauto.
Qed.

Lemma uuid_render_shape bytes b6 b8 :
  length bytes = 16%nat ->
  Forall (fun b => 0 <= b < 256) bytes ->
  bytes !! 6%nat = Some b6 -> 48 <= b6 < 64 ->
  bytes !! 8%nat = Some b8 -> 128 <= b8 < 192 ->
  uuid3_text (uuid_render bytes).
Proof.
  intros Hlen Hrange H6 Hv H8 Hr.
  do 17 (destruct bytes as [|? bytes]; try discriminate Hlen).
  simpl in H6, H8. injection H6 as ->. injection H8 as ->.
  repeat match goal with
         | H : Forall _ (_ :: _) |- _ =>
             apply Forall_cons in H as [?%hex_byte_chars H]
         end.
  repeat match goal with H : hex_char _ /\ _ |- _ => destruct H end.
  unfold uuid3_text. cbn. split; [reflexivity|]. split; [|split].
  - intros i c Hc.
    do 36 (destruct i as [|i];
           [injection Hc as <-; first [reflexivity | assumption]|]).
    discriminate Hc.
  - f_equal. apply version_char. exact Hv.
  - eexists. split; [reflexivity|]. apply variant_char. exact Hr.
Qed.

(** X12.  Whenever the offline identifier is produced, it is the text of a
    version-3 UUID: 36 characters, hyphens at positions 8, 13, 18 and 23,
    lower-case hexadecimal digits elsewhere, the version digit 3 at
    position 14 and a variant digit 8, 9, a or b at position 19. *)
Theorem offline_uuid_well_formed username s :
  offline_uuid username = Ok s -> uuid3_text s.
Proof.
  unfold offline_uuid. intros H.
  destruct (encode (pystr "OfflinePlayer:" ++ username)) as [msg|] eqn:Henc.
  2:{ unfold offline_digest in H. rewrite Henc in H. discriminate. }
  destruct (offline_digest_spec _ _ Henc) as (b6 & b8 & H6 & H8 & Hd).
  rewrite Hd in H.
  destruct (patched_digest_shape (MD5.digest msg) b6 b8 (digest_length msg)
              (digest_range msg)) as [Hlen Hrange].
  rewrite (uuid_str_render _ Hlen Hrange) in H. apply Ok_inj in H as <-.
  pose proof (digest_length msg) as Hl.
  apply (uuid_render_shape _ (set_version3 b6) (set_variant10 b8));
    try assumption.
  - rewrite list_lookup_insert_ne by lia.
    apply list_lookup_insert_eq. lia.
  - unfold set_version3. pose proof (Z.mod_pos_bound b6 16). lia.
  - apply list_lookup_insert_eq. rewrite length_insert. lia.
  - unfold set_variant10. pose proof (Z.mod_pos_bound b8 64). lia.
Qed.

Lemma offline_uuid_well_formed_witness : uuid3_text steve_uuid.
Proof.
  exact (offline_uuid_well_formed (pystr "Steve") steve_uuid
           offline_uuid_steve).
Defined.

(** * Shutdown and start-up *)



Lemma detected_positive system n :
  (_detect_max_ram system).1 = Some n -> 1 <= n.
Proof.
  destruct system as [[t|e] | [[t|]|e] | [[t|]|e] |]; simpl;
    intros H; try discriminate; injection H as <-; lia.
Qed.

Lemma ram_max_positive system : 1 <= or_ (_detect_max_ram system).1 16.
Proof.
  unfold or_. destruct (_detect_max_ram system).1 as [n|] eqn:E; [|lia].
  apply detected_positive in E. destruct (Z.eqb_spec n 0); lia.
Qed.

(** X14.  The detected memory, when there is one, is at least 1 GB: the
    total divided by 2^30 and rounded down, raised to 1 when below.  Nothing
    is detected when detection raises (a warning is logged), when
    [/proc/meminfo] has no "MemTotal:" line, when [sysctl] fails, or on
    another system; the slider then ranges up to 16.  In every case the
    upper end of the slider is at least 1. *)
Theorem detected_ram_is_positive system :
  let detected := (_detect_max_ram system).1 in
  let ram_max := or_ detected 16 in
  1 <= ram_max
  /\ (forall n, detected = Some n -> 1 <= n /\ ram_max = n)
  /\ (detected = None -> ram_max = 16)
  /\ (forall total, system = Windows (Ok total) ->
        detected = Some (Z.max 1 (total / 2 ^ 30)))
  /\ (forall total_kb, system = Linux (Ok (Some total_kb)) ->
        detected = Some (Z.max 1 (total_kb / 2 ^ 20)))
  /\ (forall memsize, system = Darwin (Ok (Some memsize)) ->
        detected = Some (Z.max 1 (memsize / 2 ^ 30)))
  /\ (forall e, e ∈ (_detect_max_ram system).2 -> detected = None).
Proof.
  cbv zeta. split; [apply ram_max_positive|]. split.
  { intros n Hn. pose proof (detected_positive _ _ Hn) as H1. split; [lia|].
    rewrite Hn. unfold or_. destruct (Z.eqb_spec n 0); lia. }
  split; [intros ->; reflexivity|]. split; [intros total ->; reflexivity|].
  split.
  { intros total_kb ->. simpl. f_equal. f_equal.
    change (1024 ^ 3) with (1024 * 2 ^ 20).
    rewrite (Z.mul_comm total_kb 1024). apply Z.div_mul_cancel_l; lia. }
  split; [intros memsize ->; reflexivity|].
  destruct system as [[t|e] | [[t|]|e] | [[t|]|e] |]; simpl;
    intros e0 He0; try reflexivity; apply elem_of_nil in He0; contradiction.
Qed.

Lemma detected_ram_is_positive_witness :
  (_detect_max_ram (Linux (Ok (Some 16777216)))).1 = Some 16
  /\ (_detect_max_ram (Linux (Ok (Some 1000)))).1 = Some 1.
Proof.
  split.
  - destruct (detected_ram_is_positive (Linux (Ok (Some 16777216))))
      as (_ & _ & _ & _ & H & _ & _).
    exact (H 16777216 eq_refl).
  - destruct (detected_ram_is_positive (Linux (Ok (Some 1000))))
      as (_ & _ & _ & _ & H & _ & _).
    exact (H 1000 eq_refl).
Defined.

Lemma init_without_config system file :
  file = NoFile \/ file = Malformed ->
  (__init__ system file).1
  = Some {| app := {| username_var := [];
                      login_type_var := pystr "offline";
                      version_var := pystr "Vanilla";
                      ram_var := Z.min 4 (or_ (_detect_max_ram system).1 16);
                      config := ∅;
                      ms_profile := None; ms_token := None |};
            ram_max := or_ (_detect_max_ram system).1 16 |}.
Proof.
  unfold __init__. destruct (_detect_max_ram system) as [detected ev].
  intros [-> | ->]; reflexivity.
Qed.

(** X15.  Started with no preferences file, or with one that cannot be
    parsed, the launcher has an empty username, offline mode, the Vanilla
    edition, an empty configuration and no Microsoft login; the memory is
    the smaller of 4 and the upper end of the slider, so between 1 and 4 and
    within the slider.  A launch attempt made without typing a username
    then fails validation. *)
Theorem startup_defaults system file :
  file = NoFile \/ file = Malformed ->
  exists started,
    (__init__ system file).1 = Some started
    /\ app started
       = {| username_var := []; login_type_var := pystr "offline";
            version_var := pystr "Vanilla";
            ram_var := Z.min 4 (ram_max started);
            config := ∅; ms_profile := None; ms_token := None |}
    /\ 1 <= ram_var (app started) <= 4
    /\ ram_var (app started) <= ram_max started
    /\ forall env,
         outcome (run (_launch env)
                    {| self := app started; config_file := file |})
         = Failed InvalidUsername.
Proof.
  intros Hfile. eexists. split; [apply init_without_config, Hfile|].
  cbn [app ram_max ram_var]. pose proof (ram_max_positive system).
  split; [reflexivity|]. split; [lia|]. split; [lia|].
  intros env. apply launch_invalid_username; reflexivity.
Qed.

Lemma startup_defaults_witness :
  exists started,
    (__init__ (Linux (Ok (Some 2097152))) Malformed).1 = Some started
    /\ ram_var (app started) = 2.
Proof.
  destruct (startup_defaults (Linux (Ok (Some 2097152))) Malformed
              (or_intror eq_refl)) as (started & Hinit & Happ & _).
  exists started. split; [exact Hinit|].
  rewrite Happ. simpl. vm_compute in Hinit. injection Hinit as <-.
  reflexivity.
Defined.

Lemma init_from_object system d username login_type ram :
  d !! pystr "offline_username" = Some (VStr username) ->
  d !! pystr "login_type" = Some (VStr login_type) ->
  d !! pystr "ram" = Some (VInt ram) ->
  (__init__ system (JsonObject d)).1
  = Some {| app := {| username_var := username;
                      login_type_var := login_type;
                      version_var := pystr "Vanilla";
                      ram_var := ram;
                      config := d;
                      ms_profile := None; ms_token := None |};
            ram_max := or_ (_detect_max_ram system).1 16 |}.
Proof.
  intros Hu Hl Hr. unfold __init__.
  destruct (_detect_max_ram system) as [detected ev]. simpl.
  rewrite Hu, Hl, Hr. reflexivity.
Qed.

(** X16.  What an offline launch attempt saved is what the next start
    finds: after an attempt that passed validation and could write the file,
    a launcher started on that file has the stripped username in the entry,
    the same login mode and the same memory, holds the saved configuration,
    and passes validation again. *)
Theorem restart_restores_preferences env w system :
  offline (self w) = true ->
  passes_validation (self w) = true ->
  open_config_for_write env = Ok tt ->
  let after := final (run (_launch env) w) in
  exists started,
    (__init__ system (config_file after)).1 = Some started
    /\ username_var (app started) = strip (username_var (self w))
    /\ login_type_var (app started) = login_type_var (self w)
    /\ ram_var (app started) = ram_var (self w)
    /\ config (app started) = config (self after)
    /\ passes_validation (app started) = true.
Proof.
  intros Hoff Hpass Hopen. cbv zeta.
  destruct (passes_validation_final env w Hpass) as [_ ->].
  unfold persisted. rewrite Hopen. simpl.
  destruct (updated_config_lookup (self w)) as (Hl & Hr & Hu & _).
  rewrite Hoff in Hu.
  eexists. split; [exact (init_from_object system _ _ _ _ Hu Hl Hr)|].
  simpl. repeat split.
  assert (Hvalid : _validate_username (strip (username_var (self w))) = true).
  { unfold passes_validation in Hpass. rewrite Hoff in Hpass.
    apply andb_true_iff in Hpass as [H _]. simpl in H.
    apply negb_true_iff, negb_false_iff in H. exact H. }
  unfold passes_validation, offline, microsoft. simpl.
  rewrite (strip_valid _ Hvalid), Hvalid.
  rewrite (offline_login_type _ Hoff). reflexivity.
Qed.

Lemma restart_restores_preferences_witness :
  let w := fresh_launcher "offline" "  Steve " "Forge" 6 in
  exists started,
    (__init__ OtherSystem
       (config_file (final (run (_launch sample_env) w)))).1 = Some started
    /\ username_var (app started) = pystr "Steve"
    /\ ram_var (app started) = 6.
Proof.
  cbv zeta.
  destruct (restart_restores_preferences sample_env
              (fresh_launcher "offline" "  Steve " "Forge" 6) OtherSystem
              eq_refl eq_refl eq_refl)
    as (started & Hinit & Hu & _ & Hr & _).
  exists started. split; [exact Hinit|]. split; [exact Hu | exact Hr].
Defined.

(** X17.  The Microsoft login does not outlive the process, although the
    login mode does.  Take a Microsoft-mode attempt that passed validation
    and could write the file, the stored [offline_username], if there is
    one, being a string as the launcher writes it.  A launcher started on
    that file is in Microsoft mode with the same memory, and every launch
    attempt ends as "not authenticated" until the login is made again. *)
Theorem microsoft_login_is_not_persisted env w system :
  microsoft (self w) = true ->
  passes_validation (self w) = true ->
  open_config_for_write env = Ok tt ->
  (forall v, config (self w) !! pystr "offline_username" = Some v ->
             exists s, v = VStr s) ->
  let file := config_file (final (run (_launch env) w)) in
  exists started,
    (__init__ system file).1 = Some started
    /\ login_type_var (app started) = pystr "microsoft"
    /\ ram_var (app started) = ram_var (self w)
    /\ forall env',
         outcome (run (_launch env')
                    {| self := app started; config_file := file |})
         = Failed NotAuthenticated.
Proof.
  intros Hms Hpass Hopen Hname. cbv zeta.
  destruct (passes_validation_final env w Hpass) as [_ ->].
  unfold persisted. rewrite Hopen. simpl.
  destruct (updated_config_lookup (self w)) as (Hl & Hr & Hu & _).
  assert (Hoff : offline (self w) = false).
  { unfold offline. rewrite (microsoft_login_type _ Hms). reflexivity. }
  rewrite Hoff in Hu. rewrite (microsoft_login_type _ Hms) in Hl.
  unfold __init__. destruct (_detect_max_ram system) as [detected ev]. simpl.
  rewrite Hl, Hr, Hu. simpl.
  destruct (config (self w) !! pystr "offline_username") as [v|] eqn:Hv.
  - destruct (Hname v eq_refl) as [s ->]. simpl.
    eexists. split; [reflexivity|]. split; [reflexivity|].
    split; [reflexivity|].
    intros env'. rewrite launch_not_authenticated; reflexivity.
  - eexists. split; [reflexivity|]. split; [reflexivity|].
    split; [reflexivity|].
    intros env'. rewrite launch_not_authenticated; reflexivity.
Qed.

Lemma microsoft_login_is_not_persisted_witness :
  let w := logged_in sample_uuid4
             (fresh_launcher "microsoft" "" "Vanilla" 4) in
  exists started,
    (__init__ OtherSystem
       (config_file (final (run (_launch sample_env) w)))).1 = Some started
    /\ outcome (run (_launch sample_env)
                  {| self := app started;
                     config_file :=
                       config_file (final (run (_launch sample_env) w)) |})
       = Failed NotAuthenticated.
Proof.
  cbv zeta.
  destruct (microsoft_login_is_not_persisted sample_env
              (logged_in sample_uuid4
                 (fresh_launcher "microsoft" "" "Vanilla" 4))
              OtherSystem eq_refl eq_refl eq_refl)
    as (started & Hinit & _ & _ & Hfail).
  - intros v Hv. vm_compute in Hv. discriminate.
  - exists started. split; [exact Hinit | exact (Hfail sample_env)].
Defined.

(** * A memory setting below 1 *)

(** X18.  The handler does not check the memory setting.  With a setting
    below 1, every command it builds asks for a maximum heap of that many
    GB and a minimum heap of 1 GB, which is more than the maximum. *)
Theorem heap_inverted_below_one env w v d o :
  ram_var (self w) < 1 ->
  GetMinecraftCommand v d o ∈ events (run (_launch env) w) ->
  jvmArguments o
  = [pystr "-Xmx" ++ str_of_int (ram_var (self w)) ++ pystr "G";
     pystr "-Xms1G"]
  /\ ram_var (self w) < min_heap (ram_var (self w)).
Proof.
  intros Hram Hin. apply command_event in Hin as [Hjvm _].
  assert (Hmin : min_heap (ram_var (self w)) = 1).
  { unfold min_heap. apply Z.max_l. apply Z.div_le_upper_bound; lia. }
  rewrite Hjvm. unfold jvm_arguments. rewrite Hmin.
  split; [reflexivity | lia].
Qed.

Lemma heap_inverted_below_one_witness :
  let w := fresh_launcher "offline" "Steve" "Vanilla" 0 in
  let o := build_options {| s_name := pystr "Steve"; s_id := steve_uuid;
                            s_token := [] |} 0 in
  GetMinecraftCommand (pystr "1.21") (pystr ".minecraft") o
    ∈ events (run (_launch sample_env) w)
  /\ jvmArguments o = [pystr "-Xmx0G"; pystr "-Xms1G"].
Proof.
  cbv zeta.
  assert (Hin : GetMinecraftCommand (pystr "1.21") (pystr ".minecraft")
                  (build_options {| s_name := pystr "Steve";
                                    s_id := steve_uuid; s_token := [] |} 0)
                ∈ events (run (_launch sample_env)
                            (fresh_launcher "offline" "Steve" "Vanilla" 0))).
  { apply list_elem_of_In. vm_compute. tauto. }
  split; [exact Hin|].
  exact (proj1 (heap_inverted_below_one sample_env
                  (fresh_launcher "offline" "Steve" "Vanilla" 0)
                  _ _ _ ltac:(simpl; lia) Hin)).
Defined.

(** * What an attempt leaves alone *)

(** X19.  A launch attempt, however it ends, changes nothing of the launcher
    but the configuration dictionary: the username entry, the login mode,
    the edition, the memory and the Microsoft login are as before.  The
    preferences file is untouched when the attempt fails validation or the
    file cannot be opened for writing. *)
Theorem launch_keeps_settings env w :
  let r := run (_launch env) w in
  username_var (self (final r)) = username_var (self w)
  /\ login_type_var (self (final r)) = login_type_var (self w)
  /\ version_var (self (final r)) = version_var (self w)
  /\ ram_var (self (final r)) = ram_var (self w)
  /\ ms_profile (self (final r)) = ms_profile (self w)
  /\ ms_token (self (final r)) = ms_token (self w)
  /\ (outcome r = Failed InvalidUsername
      \/ outcome r = Failed NotAuthenticated
      \/ (exists exc, open_config_for_write env = Err exc) ->
      config_file (final r) = config_file w).
Proof.
  cbv zeta. destruct (launch_spec env w) as [_ H].
  assert (Hfinal :
    final (run (_launch env) w) = w
    \/ (final (run (_launch env) w) = persisted env w
        /\ outcome (run (_launch env) w) <> Failed InvalidUsername
        /\ outcome (run (_launch env) w) <> Failed NotAuthenticated)).
  { destruct (outcome (run (_launch env) w)) as [|[]| |];
      first [ left; apply H
            | right; split; [apply H | split; discriminate] ]. }
  destruct Hfinal as [-> | (-> & Hn1 & Hn2)].
  - repeat split.
  - unfold persisted. cbn [self config_file with_config username_var
      login_type_var version_var ram_var ms_profile ms_token].
    repeat split.
    intros [Ho | [Ho | [exc Hexc]]]; [contradiction.. |].
    rewrite Hexc. reflexivity.
Qed.

Lemma launch_keeps_settings_witness :
  let r := run (_launch env_read_only) themed_launcher in
  username_var (self (final r)) = pystr "Steve"
  /\ config_file (final r) = config_file themed_launcher.
Proof.
  cbv zeta.
  destruct (launch_keeps_settings env_read_only themed_launcher)
    as (Hu & _ & _ & _ & _ & _ & Hfile).
  split; [exact Hu|].
  apply Hfile. right. right. eexists. reflexivity.
Defined.

(** * No retries *)

Lemma occurrences_app p ev1 ev2 :
  occurrences p (ev1 ++ ev2) = (occurrences p ev1 + occurrences p ev2)%nat.
Proof. unfold occurrences. rewrite List.filter_app. apply length_app. Qed.

Section AtMost.
Context (p : Event -> bool).

Lemma at_most_weaken {A} (m : M A) n n' :
  at_most p n m -> (n <= n')%nat -> at_most p n' m.
Proof. intros H Hn w. specialize (H w). lia. Qed.

Lemma at_most_ret {A} (a : A) : at_most p 0 (ret a).
Proof. intros w. reflexivity. Qed.

Lemma at_most_return {A} o : at_most p 0 (@return_ A o).
Proof. intros w. reflexivity. Qed.

Lemma at_most_raise {A} e : at_most p 0 (@raise A e).
Proof. intros w. reflexivity. Qed.

Lemma at_most_reads {A} (f : MelonLauncher -> A) : at_most p 0 (reads f).
Proof. intros w. reflexivity. Qed.

Lemma at_most_lift {A} (r : result A) : at_most p 0 (lift r).
Proof. intros w. destruct r; reflexivity. Qed.

Lemma at_most_config_setitem k v : at_most p 0 (config_setitem k v).
Proof. intros w. reflexivity. Qed.

Lemma at_most_dump_config : at_most p 0 dump_config.
Proof. intros w. reflexivity. Qed.

Lemma at_most_emit e n :
  n = (if p e then 1 else 0)%nat -> at_most p n (emit e).
Proof.
  intros -> w. unfold occurrences. simpl. destruct (p e); reflexivity.
Qed.

Lemma at_most_bind {A B} (m : M A) (k : A -> M B) n1 n2 :
  at_most p n1 m -> (forall a, at_most p n2 (k a)) ->
  at_most p (n1 + n2) (bind m k).
Proof.
  intros Hm Hk w. specialize (Hm w). unfold bind.
  destruct (m w) as [[r w1] ev1]. simpl in Hm.
  destruct r as [a|o|e]; simpl; [|lia..].
  specialize (Hk a w1). destruct (k a w1) as [[r' w2] ev2]. simpl in *.
  rewrite occurrences_app. lia.
Qed.

Lemma at_most_try {A} (body : M A) (h : Exc -> M A) n1 n2 :
  at_most p n1 body -> (forall e, at_most p n2 (h e)) ->
  at_most p (n1 + n2) (try_ body h).
Proof.
  intros Hm Hk w. specialize (Hm w). unfold try_.
  destruct (body w) as [[r w1] ev1]. simpl in Hm.
  destruct r as [a|o|e]; simpl; [lia..|].
  specialize (Hk e w1). destruct (h e w1) as [[r' w2] ev2]. simpl in *.
  rewrite occurrences_app. lia.
Qed.

Lemma at_most_call {A} e (r : result A) n :
  n = (if p e then 1 else 0)%nat -> at_most p n (call e r).
Proof.
  intros ->. eapply at_most_weaken.
  - apply at_most_bind; [apply at_most_emit; reflexivity|].
    intros. apply at_most_lift.
  - lia.
Qed.

Lemma at_most_when b (m : M unit) n :
  at_most p n m -> at_most p n (when b m).
Proof.
  intros H. destruct b; [exact H|].
  eapply at_most_weaken; [apply at_most_ret | lia].
Qed.

Lemma at_most_if {A} (b : bool) (m1 m2 : M A) n1 n2 :
  at_most p n1 m1 -> at_most p n2 m2 ->
  at_most p (n1 + n2) (if b then m1 else m2).
Proof.
  intros H1 H2. destruct b; eapply at_most_weaken; eauto; lia.
Qed.
End AtMost.

Lemma at_most_import p env :
  p Import || p (Logging ERROR
                   "minecraft_launcher_lib missing; aborting launch." [])
    || p (Messagebox showwarning "Launch Unavailable" []) = false ->
  at_most p 0 (import_launcher_lib env).
Proof.
  intros H w. apply orb_false_iff in H as [H Hm].
  apply orb_false_iff in H as [Hi Hl].
  unfold import_launcher_lib.
  destruct (minecraft_launcher_lib env); unfold occurrences; simpl;
    rewrite ?Hi, ?Hl, ?Hm; reflexivity.
Qed.

Lemma at_most_build_session p login_type username :
  at_most p 0 (build_session login_type username).
Proof.
  intros w. rewrite (proj2 (build_session_pure login_type username w)).
  reflexivity.
Qed.

Ltac at_most_step :=
  lazymatch goal with
  | |- at_most _ _ (bind _ _) => eapply at_most_bind
  | |- at_most _ _ (try_ _ _) => eapply at_most_try
  | |- at_most _ _ (when _ _) => eapply at_most_when
  | |- at_most _ _ (ret _) => eapply at_most_ret
  | |- at_most _ _ (return_ _) => eapply at_most_return
  | |- at_most _ _ (raise _) => eapply at_most_raise
  | |- at_most _ _ (emit _) => eapply at_most_emit; simpl; reflexivity
  | |- at_most _ _ (logging _ _ _) => eapply at_most_emit; simpl; reflexivity
  | |- at_most _ _ (messagebox _ _ _) => eapply at_most_emit; simpl; reflexivity
  | |- at_most _ _ (reads _) => eapply at_most_reads
  | |- at_most _ _ (lift _) => eapply at_most_lift
  | |- at_most _ _ (call _ _) => eapply at_most_call; simpl; reflexivity
  | |- at_most _ _ (config_setitem _ _) => eapply at_most_config_setitem
  | |- at_most _ _ dump_config => eapply at_most_dump_config
  | |- at_most _ _ (if _ then _ else _) => eapply at_most_if
  | |- at_most _ _ (import_launcher_lib _) =>
      eapply at_most_import; reflexivity
  | |- at_most _ _ (build_session _ _) => eapply at_most_build_session
  | |- at_most _ _ (pick_version _ _ _) => unfold pick_version
  | |- at_most _ _ (latest_release _) => unfold latest_release
  | |- at_most _ _ (ensure_installed _ _ _) => unfold ensure_installed
  | |- at_most _ _ (start_game _ _ _ _ _ _) => unfold start_game
  | |- at_most _ _ (validate _ _) => unfold validate
  | |- at_most _ _ (persist_config _ _ _ _) => unfold persist_config
  | |- at_most _ _ (_save_config _) => unfold _save_config
  | |- at_most _ _ (_launch _) => unfold _launch
  | |- at_most _ _ (_on_close _) => unfold _on_close
  | |- at_most _ _ (let _ := _ in _) => cbv zeta
  | |- forall _, _ => intro
  end.

Lemma launch_at_most_once p env :
  p = installs \/ p = builds_command \/ p = spawns ->
  at_most p 1 (_launch env).
Proof.
  intros [-> | [-> | ->]];
    (eapply at_most_weaken; [repeat at_most_step | vm_compute; lia]).
Qed.

Lemma events_run (m : M unit) w : events (run m w) = (m w).2.
Proof.
  unfold run. destruct (m w) as [[r w'] ev]. destruct r; reflexivity.
Qed.

(** X20.  No step is retried: in one launch attempt the library is asked at
    most once to install a version, at most once to build a command, and at
    most one process is started. *)
Theorem no_retries env w :
  let ev := events (run (_launch env) w) in
  (occurrences installs ev <= 1)%nat
  /\ (occurrences builds_command ev <= 1)%nat
  /\ (occurrences spawns ev <= 1)%nat.
Proof.
  cbv zeta. rewrite events_run. repeat split.
  - apply (launch_at_most_once installs env); auto.
  - apply (launch_at_most_once builds_command env); auto.
  - apply (launch_at_most_once spawns env); auto.
Qed.

(** * No failure goes unreported *)

Lemma pick_version_no_return lib mc_dir game_type w o :
  (pick_version lib mc_dir game_type w).1.1 <> Return o.
Proof.
  unfold_handlers.
  repeat match goal with
         | |- context [match ?x with _ => _ end] =>
             lazymatch x with
             | context [match _ with _ => _ end] => fail
             | _ => destruct x; unfold_handlers
             end
         end;
    discriminate.
Qed.

Lemma offline_session_built env w :
  offline (self w) = true ->
  passes_validation (self w) = true ->
  exists session,
    (build_session (login_type_var (self w)) (strip (username_var (self w)))
       (persisted env w)).1.1 = Next session.
Proof.
  intros Hoff Hpass.
  assert (Hvalid : _validate_username (strip (username_var (self w))) = true).
  { unfold passes_validation in Hpass. rewrite Hoff in Hpass.
    apply andb_true_iff in Hpass as [H _]. simpl in H.
    apply negb_true_iff, negb_false_iff in H. exact H. }
  apply validate_username_iff in Hvalid as [_ Hchars].
  pose proof (encode_offline_player _ Hchars) as Henc.
  destruct (offline_digest_spec _ _ Henc) as (b6 & b8 & _ & _ & Hd).
  set (msg := Z.of_N <$> _) in *.
  destruct (patched_digest_shape (MD5.digest msg) b6 b8 (digest_length msg)
              (digest_range msg)) as [Hlen Hrange].
  pose proof (offline_uuid_render _ _ Hd Hlen Hrange) as Hu.
  rewrite (offline_login_type _ Hoff).
  unfold build_session. eval_str_eqb. unfold bind, lift. rewrite Hu.
  eexists. reflexivity.
Qed.

Ltac report_failure :=
  unfold reported, as_run; cbn [outcome events]; right;
  split; [rewrite !elem_of_cons; auto | eexists _, _; find_event].

Lemma attempt_is_reported env w lib mc_dir session :
  passes_validation (self w) = true ->
  minecraft_launcher_lib env = Some lib ->
  get_minecraft_directory lib = Ok mc_dir ->
  (build_session (login_type_var (self w)) (strip (username_var (self w)))
     (persisted env w)).1.1 = Next session ->
  reported (run (_launch env) w).
Proof.
  intros Hpass Hlib Hdir Hsession.
  destruct (pick_version lib mc_dir (version_var (self w))
              (persisted env w)).1.1 as [[v g]|o|exc] eqn:Hpick.
  2:{ exfalso. exact (pick_version_no_return _ _ _ _ _ Hpick). }
  2:{ enter_directory Hpass Hlib Hdir.
      eapply sat_bind_return.
      { unfold try_.
        rewrite (triple_eta (pick_version _ _ _ _)), Hpick.
        rewrite (proj1 (pick_version_facts _ _ _ _)). reflexivity. }
      report_failure. }
  destruct (install_minecraft_version lib v mc_dir) as [[]|exc] eqn:Hins.
  2:{ enter_resolved Hpass Hlib Hdir Hpick.
      eapply sat_bind_return.
      { unfold ensure_installed, try_, call, bind, emit, lift.
        rewrite Hins. reflexivity. }
      report_failure. }
  destruct (get_minecraft_command lib v mc_dir
              (build_options session (ram_var (self w))))
    as [cmd|exc] eqn:Hcmd.
  2:{ enter_start Hpass Hlib Hdir Hpick Hins Hsession.
      eapply sat_eq.
      { unfold start_game, try_, call, bind, emit, lift.
        rewrite Hcmd. reflexivity. }
      report_failure. }
  destruct (subprocess_Popen env cmd) as [[]|exc] eqn:Hpopen.
  - enter_start Hpass Hlib Hdir Hpick Hins Hsession.
    eapply sat_eq.
    { unfold start_game, try_, call, bind, emit, lift, logging, messagebox,
        return_, ret, raise.
      rewrite Hcmd. cbv beta iota. rewrite Hpopen. reflexivity. }
    left. reflexivity.
  - enter_start Hpass Hlib Hdir Hpick Hins Hsession.
    eapply sat_eq.
    { unfold start_game, try_, call, bind, emit, lift, logging, ret, raise.
      rewrite Hcmd. cbv beta iota. rewrite Hpopen. reflexivity. }
    report_failure.
Qed.

(** X21.  Once the library is imported and has named the game directory, an
    offline attempt that passed validation ends as done or in one of three
    failures (version resolution, installation, launch), and each failure
    has been shown in an error box: no exception leaves the handler. *)
Theorem offline_failures_are_reported env w lib mc_dir :
  offline (self w) = true ->
  passes_validation (self w) = true ->
  minecraft_launcher_lib env = Some lib ->
  get_minecraft_directory lib = Ok mc_dir ->
  reported (run (_launch env) w).
Proof.
  intros Hoff Hpass Hlib Hdir.
  destruct (offline_session_built env w Hoff Hpass) as [session Hsession].
  exact (attempt_is_reported env w lib mc_dir session
           Hpass Hlib Hdir Hsession).
Qed.

Lemma offline_failures_are_reported_witness :
  reported (run (_launch (faulty_env 2))
              (fresh_launcher "offline" "Steve" "Vanilla" 4)).
Proof.
  exact (offline_failures_are_reported (faulty_env 2)
           (fresh_launcher "offline" "Steve" "Vanilla" 4)
           (faulty_lib 2) (pystr ".minecraft")
           eq_refl eq_refl eq_refl eq_refl).
Defined.
